(** * document_longcontext_idp: the notebook's conversation buffer and
      stream consumer

    A shallow embedding of the code cells of
    [document_longcontext_idp.ipynb].  The notebook builds one user turn
    (a dict with a ["content"] list) out of an instruction text and the
    PDF reports it downloads, sends it through the Bedrock Converse API,
    and prints the events of the streamed answer.

    Python values are embedded as they are at run time: dicts with string
    keys as [gmap string value], lists as [list], [bytes] as [list byte].
    Code that raises is embedded in a state-and-exception monad whose
    state is the part of the notebook's global namespace the cells share
    together with what they have written to standard output. *)

From Stdlib Require Import ZArith String Ascii List.
From Stdlib Require Import Strings.Byte.
From stdpp Require Import base option list gmap strings pretty.

Set Warnings "-register-all".
Local Open Scope string_scope.
Local Open Scope Z_scope.
Local Open Scope list_scope.

(** ** Python values *)

Inductive value : Type :=
| VNone
| VBool (b : bool)
| VInt (z : Z)
| VFloat (literal : string)   (* the double a literal such as 0.1 denotes *)
| VStr (s : string)
| VBytes (b : list byte)
| VList (l : list value)
| VDict (d : gmap string value).

(** A subscript: [x[0]] or [x["text"]]. *)
Inductive key : Type :=
| KInt (i : Z)
| KStr (s : string).

(** The exceptions the cells can end with.  The last three are raised
    inside [requests] and [botocore]; the notebook has no [try]. *)
Inductive exn : Type :=
| KeyError (k : key)
| IndexError
| TypeError
| AttributeError (attr : string)
| NameError (name : string)
| HTTPError (status : Z)
| ClientError (code : string)
| ConnectionError (cls : string).

Inductive result (A : Type) : Type :=
| Ok (a : A)
| Raise (e : exn).
Arguments Ok {A} a.
Arguments Raise {A} e.

Definition newline : string := String "010"%char EmptyString.

(** [seq[i]] on a Python sequence: a negative index counts from the end. *)
Definition py_index {A : Type} (l : list A) (i : Z) : result A :=
  let n := Z.of_nat (length l) in
  let j := if i <? 0 then i + n else i in
  if (j <? 0) || (n <=? j) then Raise IndexError
  else match l !! Z.to_nat j with
       | Some x => Ok x
       | None => Raise IndexError
       end.

(** [v[k]]. *)
Definition py_getitem (v : value) (k : key) : result value :=
  match v, k with
  | VDict d, KStr s =>
      match d !! s with
      | Some x => Ok x
      | None => Raise (KeyError k)
      end
  | VDict _, KInt _ => Raise (KeyError k)
  | VList l, KInt i => py_index l i
  | VList _, KStr _ => Raise TypeError
  | VStr s, KInt i =>
      match py_index (list_ascii_of_string s) i with
      | Ok c => Ok (VStr (String c EmptyString))
      | Raise e => Raise e
      end
  | VStr _, KStr _ => Raise TypeError
  | VBytes b, KInt i =>
      match py_index b i with
      | Ok x => Ok (VInt (Z.of_N (Byte.to_N x)))
      | Raise e => Raise e
      end
  | VBytes _, KStr _ => Raise TypeError
  | _, _ => Raise TypeError
  end.

(** [k in v] for a string [k]. *)
Definition py_contains (k : string) (v : value) : result bool :=
  match v with
  | VDict d => Ok (bool_decide (is_Some (d !! k)))
  | VList l =>
      Ok (existsb (fun x => match x with
                            | VStr s => bool_decide (s = k)
                            | _ => false
                            end) l)
  | VStr s =>
      Ok (match String.index 0 k s with Some _ => true | None => false end)
  | _ => Raise TypeError
  end.

(** [str.split(sep)] for a separator of one character, the only kind
    the notebook passes. *)
Fixpoint str_split (sep : ascii) (s : string) : list string :=
  match s with
  | EmptyString => [EmptyString]
  | String c rest =>
      if Ascii.eqb c sep then EmptyString :: str_split sep rest
      else match str_split sep rest with
           | seg :: segs => String c seg :: segs
           | [] => [String c EmptyString]
           end
  end.

(** ** The notebook's state *)

(** One call of [print]: the text and the [end=] argument. *)
Record print_call : Type := Print { p_text : string; p_end : string }.

(** The keyword arguments of [client.converse] and
    [client.converse_stream]. *)
Record request : Type := Request {
  modelId : string;
  system : value;
  req_messages : value;
  inferenceConfig : value
}.

Inductive api_call : Type :=
| Converse (r : request)
| ConverseStream (r : request).

(** The global names the cells share ([messages], [content_text]), what
    has been printed, and the calls made on [client] so far, oldest
    first.  The cells are run top to bottom, so [messages] is bound
    before its first use. *)
Record notebook : Type := Notebook {
  messages : value;
  content_text : option value;
  stdout : list print_call;
  api_log : list api_call
}.

Definition set_messages (m : value) (st : notebook) : notebook :=
  Notebook m (content_text st) (stdout st) (api_log st).
Definition set_content_text (t : value) (st : notebook) : notebook :=
  Notebook (messages st) (Some t) (stdout st) (api_log st).
Definition write_stdout (p : print_call) (st : notebook) : notebook :=
  Notebook (messages st) (content_text st) (stdout st ++ [p]) (api_log st).
Definition log_call (c : api_call) (st : notebook) : notebook :=
  Notebook (messages st) (content_text st) (stdout st) (api_log st ++ [c]).

(** A cell either finishes or ends with an exception; what it did to the
    notebook before raising stays done. *)
Definition nb (A : Type) : Type := notebook -> result A * notebook.

#[export] Instance nb_ret : MRet nb := fun A a st => (Ok a, st).
#[export] Instance nb_bind : MBind nb := fun A B f m st =>
  match m st with
  | (Ok a, st') => f a st'
  | (Raise e, st') => (Raise e, st')
  end.

Definition lift {A : Type} (r : result A) : nb A := fun st => (r, st).
Definition raise {A : Type} (e : exn) : nb A := lift (Raise e).
Definition print (text end_ : string) : nb unit :=
  fun st => (Ok tt, write_stdout (Print text end_) st).
Definition bind_content_text (text : value) : nb unit :=
  fun st => (Ok tt, set_content_text text st).

(** The notebook after a cell was run, whether it raised or not. *)
Definition after {A : Type} (cell : nb A) (st : notebook) : notebook :=
  snd (cell st).
Definition outcome {A : Type} (cell : nb A) (st : notebook) : result A :=
  fst (cell st).

(** What standard output shows. *)
Definition shown (out : list print_call) : string :=
  String.concat "" (map (fun p => p_text p +:+ p_end p) out).

(** ** Building the turn *)

(** [messages = [{"role": "user", "content": []}]] *)
Definition fresh_messages : value :=
  VList [VDict {[ "role" := VStr "user"; "content" := VList [] ]}].

Definition cell_messages : nb unit :=
  fun st => (Ok tt, set_messages fresh_messages st).

(** The content list of the first message, when [messages] has the shape
    the cells keep it in. *)
Definition turn_content (m : value) : option (list value) :=
  match m with
  | VList (VDict turn :: _) =>
      match turn !! "content" with
      | Some (VList c) => Some c
      | _ => None
      end
  | _ => None
  end.

(** The list object held under ["content"] is updated in place.  Values
    carry no object identity: this is the update for a [messages] whose
    entries share no list or dict, as the cells build it. *)
Definition store_content (c : list value) (m : value) : value :=
  match m with
  | VList (VDict turn :: rest) =>
      VList (VDict (<["content" := VList c]> turn) :: rest)
  | _ => m
  end.

(** [messages[0]['content'].append(obj)] *)
Definition content_append (obj : value) : nb unit :=
  fun st =>
    match py_getitem (messages st) (KInt 0) with
    | Raise e => (Raise e, st)
    | Ok turn =>
        match py_getitem turn (KStr "content") with
        | Raise e => (Raise e, st)
        | Ok (VList c) =>
            (Ok tt, set_messages (store_content (c ++ [obj]) (messages st)) st)
        | Ok _ => (Raise (AttributeError "append"), st)
        end
    end.

(** [query = {"text": ...}] followed by the append. *)
Definition text_block (text : string) : value :=
  VDict {[ "text" := VStr text ]}.

Definition cell_query (text : string) : nb unit :=
  content_append (text_block text).

Definition followup_question : string :=
  "How many employees worked at Amazon at the end of 2023?".

(** [report_url.split("/")[-1].split('.')[0]] *)
Definition file_name_of (report_url : string) : result string :=
  match py_index (str_split "/" report_url) (-1) with
  | Raise e => Raise e
  | Ok last_segment => py_index (str_split "." last_segment) 0
  end.

Definition document_block (file_name : string) (pdf_file_object : list byte)
  : value :=
  VDict {[ "document" :=
    VDict {[ "name" := VStr file_name;
             "format" := VStr "pdf";
             "source" := VDict {[ "bytes" := VBytes pdf_file_object ]} ]} ]}.

Definition append_document (file_name : string) (pdf_file_object : list byte)
  : nb unit :=
  content_append (document_block file_name pdf_file_object).

Definition reports : list string :=
  [ "https://s2.q4cdn.com/299287126/files/doc_financials/2025/ar/Amazon-2024-Annual-Report.pdf";
    "https://s2.q4cdn.com/299287126/files/doc_financials/2024/ar/Amazon-com-Inc-2023-Annual-Report.pdf" ].

(** What [requests.get] hands back. *)
Record http_response : Type := HttpResponse {
  status_code : Z;
  content : list byte
}.

(** [response.raise_for_status()] *)
Definition raise_for_status (response : http_response) : result unit :=
  if (400 <=? status_code response) && (status_code response <? 600)
  then Raise (HTTPError (status_code response))
  else Ok tt.

Definition system_prompt : value :=
  VList [VDict {[ "text" :=
    VStr "You are an expert analyst that can critically analyse financial reports." ]}].

Definition inf_params : value :=
  VDict {[ "maxTokens" := VInt 10000;
           "topP" := VFloat "0.1";
           "temperature" := VFloat "0.1" ]}.

Definition PREMIER_MODEL_ID : string := "us.amazon.nova-premier-v1:0".
Definition model_id : string := PREMIER_MODEL_ID.

(** ** The collaborators *)

(** The iterator botocore hands back under ['stream']: the events it
    yields, each a dict, and how the iteration ends, by exhaustion
    ([None]) or by an exception raised from the transport. *)
Record event_stream : Type := EventStream {
  events : list (gmap string value);
  failure : option exn
}.

(** The dict [converse_stream] returns, read with [.get('stream')]. *)
Record stream_response : Type := StreamResponse {
  stream : option event_stream
}.

Section Notebook.

(** [str()] of the values that are neither strings, integers, booleans
    nor [None]. *)
Variable py_repr : value -> string.

(** [requests.get], and the two operations of the Bedrock client.  The
    client is asked with the number of calls made before, so that two
    equal requests need not be answered alike; it reads the request it is
    given and leaves the caller's objects as they are. *)
Variable requests_get : string -> result http_response.
Variable client_converse : nat -> request -> result value.
Variable client_converse_stream : nat -> request -> result stream_response.

Definition py_str (v : value) : string :=
  match v with
  | VStr s => s
  | VInt z => pretty z
  | VBool true => "True"
  | VBool false => "False"
  | VNone => "None"
  | _ => py_repr v
  end.

(** *** Downloading the reports *)

(** The body of [for report_url in reports]. *)
Definition load_report (report_url : string) : nb unit :=
  file_name ← lift (file_name_of report_url);
  print file_name newline ;;
  response ← lift (requests_get report_url);
  lift (raise_for_status response) ;;
  append_document file_name (content response).

Fixpoint load_reports (urls : list string) : nb unit :=
  match urls with
  | [] => mret tt
  | report_url :: rest => load_report report_url ;; load_reports rest
  end.

Definition cell_reports : nb unit := load_reports reports.

(** *** The blocking request *)

Definition request_of (st : notebook) : request :=
  Request model_id system_prompt (messages st) inf_params.

Definition call_converse : nb value :=
  fun st =>
    (client_converse (length (api_log st)) (request_of st),
     log_call (Converse (request_of st)) st).

(** [model_response["output"]["message"]["content"][0]["text"]] *)
Definition extract_text (model_response : value) : result value :=
  match py_getitem model_response (KStr "output") with
  | Raise e => Raise e
  | Ok output =>
  match py_getitem output (KStr "message") with
  | Raise e => Raise e
  | Ok message =>
  match py_getitem message (KStr "content") with
  | Raise e => Raise e
  | Ok blocks =>
  match py_getitem blocks (KInt 0) with
  | Raise e => Raise e
  | Ok block => py_getitem block (KStr "text")
  end end end end.

(** The call and the extraction, as both request cells have them; the
    cell's value is [model_response]. *)
Definition converse_once : nb value :=
  model_response ← call_converse;
  text ← lift (extract_text model_response);
  bind_content_text text ;;
  mret model_response.

Definition cell_converse : nb value := converse_once.

Definition cell_converse_followup : nb value :=
  model_response ← converse_once;
  print (newline +:+ "[Full Response]") newline ;;
  mret model_response.

(** *** The streamed request *)

(** [if 'messageStart' in event: ...] *)
Definition on_message_start (event : gmap string value) : nb unit :=
  match event !! "messageStart" with
  | Some message_start =>
      role ← lift (py_getitem message_start (KStr "role"));
      print (newline +:+ "Role: " +:+ py_str role) newline
  | None => mret tt
  end.

(** [if 'contentBlockDelta' in event: ...] *)
Definition on_content_block_delta (event : gmap string value) : nb unit :=
  match event !! "contentBlockDelta" with
  | Some block_delta =>
      delta ← lift (py_getitem block_delta (KStr "delta"));
      text ← lift (py_getitem delta (KStr "text"));
      print (py_str text) ""
  | None => mret tt
  end.

(** [if 'messageStop' in event: ...] *)
Definition on_message_stop (event : gmap string value) : nb unit :=
  match event !! "messageStop" with
  | Some message_stop =>
      reason ← lift (py_getitem message_stop (KStr "stopReason"));
      print (newline +:+ "Stop reason: " +:+ py_str reason) newline
  | None => mret tt
  end.

(** [f"{label}{metadata['usage'][field]}"], printed. *)
Definition print_usage (label : string) (metadata : value) (field : string)
  : nb unit :=
  usage ← lift (py_getitem metadata (KStr "usage"));
  count ← lift (py_getitem usage (KStr field));
  print (label +:+ py_str count) newline.

(** [if 'metadata' in event: ...] *)
Definition on_metadata (event : gmap string value) : nb unit :=
  match event !! "metadata" with
  | Some metadata =>
      has_usage ← lift (py_contains "usage" metadata);
      (if has_usage : bool then
         print (newline +:+ "Token usage") newline ;;
         print_usage "Input tokens: " metadata "inputTokens" ;;
         print_usage ":Output tokens: " metadata "outputTokens" ;;
         print_usage ":Total tokens: " metadata "totalTokens"
       else mret tt) ;;
      has_metrics ← lift (py_contains "metrics" metadata);
      if has_metrics : bool then
        metrics ← lift (py_getitem metadata (KStr "metrics"));
        latency ← lift (py_getitem metrics (KStr "latencyMs"));
        print ("Latency: " +:+ py_str latency +:+ " milliseconds") newline
      else mret tt
  | None => mret tt
  end.

(** The body of [for event in stream]: four [if]s, one after the other. *)
Definition on_event (event : gmap string value) : nb unit :=
  on_message_start event ;;
  on_content_block_delta event ;;
  on_message_stop event ;;
  on_metadata event.

Fixpoint for_events (evs : list (gmap string value)) : nb unit :=
  match evs with
  | [] => mret tt
  | event :: rest => on_event event ;; for_events rest
  end.

(** [for event in stream: ...]: the iterator raises where the transport
    fails. *)
Definition consume (s : event_stream) : nb unit :=
  for_events (events s) ;;
  match failure s with
  | Some e => raise e
  | None => mret tt
  end.

Definition call_converse_stream : nb stream_response :=
  fun st =>
    (client_converse_stream (length (api_log st)) (request_of st),
     log_call (ConverseStream (request_of st)) st).

Definition cell_converse_stream : nb unit :=
  model_response ← call_converse_stream;
  match stream model_response with
  | Some s => consume s
  | None => mret tt
  end.

End Notebook.

(** ** The provider's events *)

(** The events of a streamed answer by kind, and the dict each one is
    delivered as; the keys are those the consumer reads. *)
Record token_usage : Type := TokenUsage {
  inputTokens : Z;
  outputTokens : Z;
  totalTokens : Z
}.

Inductive StreamEvent : Type :=
| MessageStart (role : string)
| ContentDelta (text : string)
| MessageStop (stopReason : string)
| Metadata (usage : option token_usage) (latencyMs : option Z).

Definition wire_usage (usage : option token_usage) : gmap string value :=
  match usage with
  | Some u =>
      {[ "usage" := VDict {[ "inputTokens" := VInt (inputTokens u);
                             "outputTokens" := VInt (outputTokens u);
                             "totalTokens" := VInt (totalTokens u) ]} ]}
  | None => ∅
  end.

Definition wire_metrics (latencyMs : option Z) : gmap string value :=
  match latencyMs with
  | Some ms => {[ "metrics" := VDict {[ "latencyMs" := VInt ms ]} ]}
  | None => ∅
  end.

Definition wire (e : StreamEvent) : gmap string value :=
  match e with
  | MessageStart role =>
      {[ "messageStart" := VDict {[ "role" := VStr role ]} ]}
  | ContentDelta text =>
      {[ "contentBlockDelta" :=
           VDict {[ "delta" := VDict {[ "text" := VStr text ]} ]} ]}
  | MessageStop stopReason =>
      {[ "messageStop" := VDict {[ "stopReason" := VStr stopReason ]} ]}
  | Metadata usage latencyMs =>
      {[ "metadata" := VDict (wire_usage usage ∪ wire_metrics latencyMs) ]}
  end.

(** What the consumer is expected to print for one event. *)
Definition usage_prints (usage : option token_usage) : list print_call :=
  match usage with
  | Some u =>
      [ Print (newline +:+ "Token usage") newline;
        Print ("Input tokens: " +:+ pretty (inputTokens u)) newline;
        Print (":Output tokens: " +:+ pretty (outputTokens u)) newline;
        Print (":Total tokens: " +:+ pretty (totalTokens u)) newline ]
  | None => []
  end.

Definition latency_prints (latencyMs : option Z) : list print_call :=
  match latencyMs with
  | Some ms => [ Print ("Latency: " +:+ pretty ms +:+ " milliseconds") newline ]
  | None => []
  end.

Definition prints_of (e : StreamEvent) : list print_call :=
  match e with
  | MessageStart role => [ Print (newline +:+ "Role: " +:+ role) newline ]
  | ContentDelta text => [ Print text "" ]
  | MessageStop stopReason =>
      [ Print (newline +:+ "Stop reason: " +:+ stopReason) newline ]
  | Metadata usage latencyMs => usage_prints usage ++ latency_prints latencyMs
  end.

(** The texts of the delta events, in arrival order. *)
Definition delta_texts (evs : list StreamEvent) : list string :=
  flat_map (fun e => match e with ContentDelta text => [text] | _ => [] end) evs.

(** The delta texts among the prints: the delta print is the only one
    that passes [end=""]. *)
Definition deltas (out : list print_call) : list string :=
  map p_text (filter (fun p => p_end p = "") out).

(** A notebook in which only [messages] is bound. *)
Definition notebook_with (m : value) : notebook := Notebook m None [] [].

Definition hello_events : list StreamEvent :=
  [ MessageStart "assistant"; ContentDelta "Hel"; ContentDelta "lo";
    MessageStop "end_turn" ].

(** The builder's two operations, as a caller issues them. *)
Inductive append_op : Type :=
| AppendText (text : string)
| AppendDocument (file_name : string) (pdf_file_object : list byte).

Definition block_of (op : append_op) : value :=
  match op with
  | AppendText text => text_block text
  | AppendDocument file_name pdf => document_block file_name pdf
  end.

Definition run_op (op : append_op) : nb unit :=
  match op with
  | AppendText text => cell_query text
  | AppendDocument file_name pdf => append_document file_name pdf
  end.

Fixpoint run_ops (ops : list append_op) : nb unit :=
  match ops with
  | [] => mret tt
  | op :: rest => run_op op ;; run_ops rest
  end.

(** ** Notions the statements use *)

(** The notebook after some more prints. *)
Definition emit (ps : list print_call) (st : notebook) : notebook :=
  fold_left (fun st' p => write_stdout p st') ps st.

(** [str()] where it is not called. *)
Definition repr_unused : value -> string := fun _ => "".

(** [m] respects [R]: [R] relates the notebook before a run of [m] to the
    notebook after it, whether [m] raised or not. *)
Definition respects (R : notebook -> notebook -> Prop) {A : Type} (m : nb A)
  : Prop :=
  forall st, R st (after m st).

Definition same_messages (st st' : notebook) : Prop :=
  messages st' = messages st.

Definition stdout_extended (st st' : notebook) : Prop :=
  exists ps, stdout st' = stdout st ++ ps.

Definition same_log (st st' : notebook) : Prop := api_log st' = api_log st.

(** The event cut down to one key. *)
Definition only (k : string) (event : gmap string value) : gmap string value :=
  filter (fun kv => kv.1 = k) event.

(** An event that carries a delta and a stop at once. *)
Definition delta_and_stop : gmap string value :=
  wire (MessageStop "end_turn") ∪ wire (ContentDelta "lo").

(** [model_response["output"]["message"]["content"]] *)
Definition response_blocks (model_response : value) : result value :=
  match py_getitem model_response (KStr "output") with
  | Raise e => Raise e
  | Ok output =>
  match py_getitem output (KStr "message") with
  | Raise e => Raise e
  | Ok message => py_getitem message (KStr "content")
  end end.

(** A provider response carrying the given content array. *)
Definition response_with (blocks : list value) : value :=
  VDict {[ "output" :=
    VDict {[ "message" :=
      VDict {[ "role" := VStr "assistant"; "content" := VList blocks ]} ]};
           "stopReason" := VStr "end_turn" ]}.

Definition occurs (c : ascii) (s : string) : Prop :=
  In c (list_ascii_of_string s).

(** [sep.join(segs)] *)
Fixpoint join (sep : ascii) (segs : list string) : string :=
  match segs with
  | [] => ""
  | seg :: rest =>
      match rest with
      | [] => seg
      | _ :: _ => seg +:+ String sep (join sep rest)
      end
  end.

(** A response of status 200 whose body is the four bytes "%PDF". *)
Definition pdf_response : http_response := HttpResponse 200 [x25; x50; x44; x46].

Definition hello_response : value := response_with [text_block "Hello"].

Definition hello_stream : stream_response :=
  StreamResponse (Some (EventStream (map wire hello_events) None)).

(** The notebook once the instructions were appended to the fresh turn. *)
Definition asked : notebook :=
  after (cell_query "Analyze the reports.") (after cell_messages (notebook_with VNone)).

(** The name the loop gives to a report. *)
Definition report_name (report_url : string) : string :=
  match file_name_of report_url with
  | Ok name => name
  | Raise _ => ""
  end.

(** A URL with what its download returned, and the block the loop
    appends for it. *)
Definition report_block (d : string * http_response) : value :=
  document_block (report_name d.1) (content d.2).

Definition report_print (report_url : string) : print_call :=
  Print (report_name report_url) newline.

(** The download of [d.1] returned [d.2], with a status that is no error. *)
Definition downloaded (requests_get : string -> result http_response)
    (d : string * http_response) : Prop :=
  requests_get d.1 = Ok d.2 /\ raise_for_status d.2 = Ok tt.

Definition same_content_text (st st' : notebook) : Prop :=
  content_text st' = content_text st.

(** The line the follow-up request cell prints. *)
Definition full_response_banner : print_call :=
  Print (newline +:+ "[Full Response]") newline.

(** A delta event that carries part of a tool call instead of text. *)
Definition tool_use_event : gmap string value :=
  {[ "contentBlockDelta" :=
       VDict {[ "delta" := VDict {[ "toolUse" := VDict {[ "input" := VStr "{" ]} ]};
                "contentBlockIndex" := VInt 1 ]} ]}.

(** A metadata event whose usage has the input count only. *)
Definition input_only_usage : gmap string value :=
  {[ "metadata" := VDict {[ "usage" := VDict {[ "inputTokens" := VInt 7 ]} ]} ]}.

Definition not_found_response : http_response := HttpResponse 404 [].

Definition first_report : string :=
  "https://s2.q4cdn.com/299287126/files/doc_financials/2025/ar/Amazon-2024-Annual-Report.pdf".

Definition second_report : string :=
  "https://s2.q4cdn.com/299287126/files/doc_financials/2024/ar/Amazon-com-Inc-2023-Annual-Report.pdf".

(** A server that has the first report only. *)
Definition first_report_only (report_url : string) : result http_response :=
  if bool_decide (report_url = first_report) then Ok pdf_response
  else Ok not_found_response.

(** [block] is a document entry with this name, the format "pdf" and
    these bytes, read the way the turn is read back. *)
Definition holds_document (block : value) (name : string) (bytes : list byte)
  : Prop :=
  exists document source,
    py_getitem block (KStr "document") = Ok document /\
    py_getitem document (KStr "name") = Ok (VStr name) /\
    py_getitem document (KStr "format") = Ok (VStr "pdf") /\
    py_getitem document (KStr "source") = Ok source /\
    py_getitem source (KStr "bytes") = Ok (VBytes bytes).

(** The dict of an event that may be absent, and its prints. *)
Definition part (e : option StreamEvent) : gmap string value :=
  from_option wire ∅ e.

Definition part_prints (e : option StreamEvent) : list print_call :=
  from_option prints_of [] e.

(** One event that carries any of the four keys at once, beside keys
    the loop does not test. *)
Definition several (start delta stop : option string)
    (metadata : option (option token_usage * option Z))
    (extra : gmap string value) : gmap string value :=
  part (MessageStart <$> start) ∪ part (ContentDelta <$> delta)
    ∪ part (MessageStop <$> stop)
    ∪ part ((fun m => Metadata m.1 m.2) <$> metadata) ∪ extra.

Definition several_prints (start delta stop : option string)
    (metadata : option (option token_usage * option Z)) : list print_call :=
  part_prints (MessageStart <$> start) ++ part_prints (ContentDelta <$> delta)
    ++ part_prints (MessageStop <$> stop)
    ++ part_prints ((fun m => Metadata m.1 m.2) <$> metadata).

(** [Config(connect_timeout=300, read_timeout=300,
    retries={'max_attempts': 1})], the configuration the client is
    created with. *)
Record client_config : Type := Config {
  connect_timeout : Z;
  read_timeout : Z;
  retries : gmap string value
}.

Definition bedrock_config : client_config :=
  Config 300 300 {[ "max_attempts" := VInt 1 ]}.

(** How botocore reads [retries]: ["total_max_attempts"] counts every
    attempt; ["max_attempts"] counts the retries after the first
    attempt, so one is added for the first attempt; with neither, the
    default of the service applies. *)
Definition total_max_attempts (default : Z) (cfg : client_config) : Z :=
  match retries cfg !! "total_max_attempts" with
  | Some (VInt n) => n
  | _ =>
      match retries cfg !! "max_attempts" with
      | Some (VInt n) => n + 1
      | _ => default
      end
  end.

(** One request through botocore's retry handler.  [send k] is what the
    attempt numbered [k] comes back with; a failed attempt is repeated
    while its failure is one botocore retries and retries are left.  The
    result is what the last attempt came back with, and how many
    attempts were made. *)
Fixpoint attempts {A : Type} (retryable : exn -> bool)
    (send : nat -> result A) (retries_left k : nat) : result A * nat :=
  match send k, retries_left with
  | Raise e, S fewer =>
      if retryable e then attempts retryable send fewer (S k)
      else (Raise e, S k)
  | r, _ => (r, S k)
  end.

Definition with_retries {A : Type} (default : Z) (cfg : client_config)
    (retryable : exn -> bool) (send : nat -> result A) : result A * nat :=
  attempts retryable send (Z.to_nat (total_max_attempts default cfg - 1)) 0.

(** An operation of the notebook's client over a transport: what the
    caller gets, and the number of HTTP attempts made for the call
    numbered [n]. *)
Definition bedrock_client {A : Type} (default : Z) (retryable : exn -> bool)
    (send : nat -> nat -> request -> result A) (n : nat) (r : request)
  : result A :=
  fst (with_retries default bedrock_config retryable (fun k => send n k r)).

Definition http_attempts {A : Type} (default : Z) (retryable : exn -> bool)
    (send : nat -> nat -> request -> result A) (n : nat) (r : request) : nat :=
  snd (with_retries default bedrock_config retryable (fun k => send n k r)).

(** Throttling and connection failures are among those botocore retries. *)
Definition retries_throttling (e : exn) : bool :=
  match e with
  | ClientError code => bool_decide (code = "ThrottlingException")
  | ConnectionError _ => true
  | _ => false
  end.

(** A transport that throttles the first attempt and answers the second. *)
Definition throttled_once (n k : nat) (r : request) : result value :=
  match k with
  | O => Raise (ClientError "ThrottlingException")
  | S _ => Ok hello_response
  end.

(** A transport that rejects the request. *)
Definition rejecting (n k : nat) (r : request) : result value :=
  Raise (ClientError "ValidationException").

(** [Markdown(content_text)]: the display object is built by IPython,
    which may raise on what it is given; the cell changes nothing. *)
Definition cell_markdown (display_markdown : value -> result value) : nb value :=
  fun st =>
    match content_text st with
    | Some text => (display_markdown text, st)
    | None => (Raise (NameError "content_text"), st)
    end.

(** The code cells from [messages = ...] on, run top to bottom: a cell
    that raises ends the run.  The cells left out bind constants. *)
Definition notebook_run (py_repr : value -> string)
    (requests_get : string -> result http_response)
    (client_converse : nat -> request -> result value)
    (client_converse_stream : nat -> request -> result stream_response)
    (display_markdown : value -> result value)
    (instructions : string) : nb value :=
  cell_messages ;;
  cell_query instructions ;;
  cell_reports requests_get ;;
  cell_converse client_converse ;;
  cell_markdown display_markdown ;;
  cell_converse_stream py_repr client_converse_stream ;;
  cell_query followup_question ;;
  cell_converse_followup client_converse ;;
  cell_markdown display_markdown.

(** ** Running cells *)

Lemma run_bind {A B : Type} (m : nb A) (f : A -> nb B) (st : notebook) :
  (m ≫= f) st =
  match m st with
  | (Ok a, st') => f a st'
  | (Raise e, st') => (Raise e, st')
  end.
Proof. reflexivity. Qed.

Lemma run_ret_tt (st : notebook) : (mret tt : nb unit) st = (Ok tt, st).
Proof. reflexivity. Qed.

Lemma run_print (text end_ : string) (st : notebook) :
  print text end_ st = (Ok tt, write_stdout (Print text end_) st).
Proof. reflexivity. Qed.

Lemma py_index_head {A : Type} (x : A) (l : list A) :
  py_index (x :: l) 0 = Ok x.
Proof.
  unfold py_index. cbn [length].
  replace (0 <? 0) with false by reflexivity. cbn [orb].
  destruct (Z.leb_spec (Z.of_nat (S (length l))) 0) as [Hle | _].
  - lia.
  - reflexivity.
Qed.

Lemma py_index_nil {A : Type} (i : Z) : py_index (@nil A) i = Raise IndexError.
Proof.
  unfold py_index. cbn [length].
  destruct (i <? 0) eqn:Hi.
  - replace (i + Z.of_nat 0 <? 0) with true; [reflexivity |].
    symmetry. apply Z.ltb_lt. apply Z.ltb_lt in Hi. lia.
  - replace (Z.of_nat 0 <=? i) with true.
    + now rewrite orb_true_r.
    + symmetry. apply Z.leb_le. apply Z.ltb_ge in Hi. lia.
Qed.

(** ** The turn grows at its end *)

Lemma turn_content_shape (m : value) (c : list value) :
  turn_content m = Some c ->
  exists turn rest,
    m = VList (VDict turn :: rest) /\ turn !! "content" = Some (VList c).
Proof.
  unfold turn_content. intros H.
  destruct m as [ | | | | | | l | ]; try discriminate.
  destruct l as [ | v rest]; try discriminate.
  destruct v as [ | | | | | | | turn]; try discriminate.
  destruct (turn !! "content") as [v | ] eqn:Hc; try discriminate.
  destruct v; try discriminate.
  exists turn, rest. split; [reflexivity | congruence].
Qed.

Lemma turn_content_store (m : value) (c c' : list value) :
  turn_content m = Some c -> turn_content (store_content c' m) = Some c'.
Proof.
  intros H. destruct (turn_content_shape _ _ H) as (turn & rest & -> & _).
  cbn. now rewrite lookup_insert_eq.
Qed.

Lemma content_append_run (obj : value) (st : notebook) (c : list value) :
  turn_content (messages st) = Some c ->
  content_append obj st =
    (Ok tt, set_messages (store_content (c ++ [obj]) (messages st)) st).
Proof.
  intros H. destruct (turn_content_shape _ _ H) as (turn & rest & Hm & Hc).
  unfold content_append. rewrite Hm. cbn [py_getitem].
  rewrite py_index_head. cbn [py_getitem]. rewrite Hc. reflexivity.
Qed.

Lemma run_op_append (op : append_op) : run_op op = content_append (block_of op).
Proof. destruct op; reflexivity. Qed.

Lemma run_ops_content (ops : list append_op) (st : notebook) (c : list value) :
  turn_content (messages st) = Some c ->
  outcome (run_ops ops) st = Ok tt /\
  turn_content (messages (after (run_ops ops) st)) = Some (c ++ map block_of ops).
Proof.
  revert st c. induction ops as [ | op ops IH]; intros st c H.
  - cbn. now rewrite app_nil_r.
  - unfold outcome, after. cbn [run_ops]. rewrite run_bind.
    rewrite run_op_append, (content_append_run _ _ c H).
    specialize (IH (set_messages (store_content (c ++ [block_of op]) (messages st)) st)
                   (c ++ [block_of op])).
    destruct IH as [IH1 IH2].
    + cbn [set_messages messages]. now apply turn_content_store with (c := c).
    + split; [exact IH1 |].
      unfold after in IH2. rewrite IH2. cbn [map].
      now rewrite <- app_assoc.
Qed.

(** C3: from the empty turn, any sequence of text and document appends
    succeeds and leaves as the turn's content exactly the appended blocks
    in call order. *)
Theorem append_only_fifo (ops : list append_op) (st : notebook) :
  outcome (run_ops ops) (after cell_messages st) = Ok tt /\
  turn_content (messages (after (run_ops ops) (after cell_messages st)))
    = Some (map block_of ops).
Proof.
  apply (run_ops_content ops (after cell_messages st) []).
  reflexivity.
Qed.

(** ** What a cell may touch *)

Lemma emit_app (ps qs : list print_call) (st : notebook) :
  emit (ps ++ qs) st = emit qs (emit ps st).
Proof. unfold emit. apply fold_left_app. Qed.

Lemma emit_fields (ps : list print_call) (st : notebook) :
  messages (emit ps st) = messages st /\
  content_text (emit ps st) = content_text st /\
  stdout (emit ps st) = stdout st ++ ps /\
  api_log (emit ps st) = api_log st.
Proof.
  revert st. induction ps as [ | p ps IH]; intros st.
  - cbn. now rewrite app_nil_r.
  - change (emit (p :: ps) st) with (emit ps (write_stdout p st)).
    destruct (IH (write_stdout p st)) as (-> & -> & -> & ->).
    cbn. now rewrite <- app_assoc.
Qed.

Lemma stdout_emit (ps : list print_call) (st : notebook) :
  stdout (emit ps st) = stdout st ++ ps.
Proof. apply emit_fields. Qed.

(** ** Consuming well-formed events *)

Lemma on_event_wire (py_repr : value -> string) (e : StreamEvent)
    (st : notebook) :
  on_event py_repr (wire e) st = (Ok tt, emit (prints_of e) st).
Proof.
  destruct e as [role | text | reason | usage latency].
  - vm_compute. reflexivity.
  - vm_compute. reflexivity.
  - vm_compute. reflexivity.
  - destruct usage as [u | ], latency as [ms | ]; vm_compute; reflexivity.
Qed.

Lemma for_events_wire (py_repr : value -> string) (evs : list StreamEvent)
    (st : notebook) :
  for_events py_repr (map wire evs) st = (Ok tt, emit (flat_map prints_of evs) st).
Proof.
  revert st. induction evs as [ | e evs IH]; intros st.
  - reflexivity.
  - cbn [map for_events flat_map]. rewrite run_bind, on_event_wire, IH.
    now rewrite emit_app.
Qed.

Lemma consume_wire (py_repr : value -> string) (evs : list StreamEvent)
    (ending : option exn) (st : notebook) :
  consume py_repr (EventStream (map wire evs) ending) st =
    (match ending with Some e => Raise e | None => Ok tt end,
     emit (flat_map prints_of evs) st).
Proof.
  unfold consume. cbn [events failure].
  rewrite run_bind, for_events_wire. now destruct ending.
Qed.

Lemma deltas_app (out out' : list print_call) :
  deltas (out ++ out') = deltas out ++ deltas out'.
Proof. unfold deltas. now rewrite filter_app, map_app. Qed.

Lemma deltas_prints_of (e : StreamEvent) :
  deltas (prints_of e) = match e with ContentDelta text => [text] | _ => [] end.
Proof.
  destruct e as [role | text | reason | usage latency]; try reflexivity.
  now destruct usage, latency.
Qed.

Lemma deltas_flat_map (evs : list StreamEvent) :
  deltas (flat_map prints_of evs) = delta_texts evs.
Proof.
  induction evs as [ | e evs IH]; [reflexivity |].
  cbn [flat_map delta_texts]. rewrite deltas_app, deltas_prints_of.
  fold (delta_texts evs). now rewrite IH.
Qed.

(** C1: on every finite sequence of stream events the consumer finishes,
    its prints are those of the events one after the other, so each
    delta text is printed once, in arrival order; on start, "Hel", "lo",
    stop(end_turn) it prints "Hel" then "lo", shows the stop reason
    end_turn, and the deltas concatenate to "Hello". *)
Theorem deltas_emitted_once_in_order (py_repr : value -> string)
    (evs : list StreamEvent) (st : notebook) :
  let run := consume py_repr (EventStream (map wire evs) None) in
  let hello := consume py_repr (EventStream (map wire hello_events) None) in
  outcome run st = Ok tt /\
  stdout (after run st) = stdout st ++ flat_map prints_of evs /\
  deltas (stdout (after run st)) = deltas (stdout st) ++ delta_texts evs /\
  stdout (after hello (notebook_with fresh_messages)) =
    [ Print (newline +:+ "Role: assistant") newline;
      Print "Hel" ""; Print "lo" "";
      Print (newline +:+ "Stop reason: end_turn") newline ] /\
  deltas (stdout (after hello (notebook_with fresh_messages))) = ["Hel"; "lo"] /\
  String.concat "" (deltas (stdout (after hello (notebook_with fresh_messages))))
    = "Hello" /\
  shown (stdout (after hello (notebook_with fresh_messages))) =
    newline +:+ "Role: assistant" +:+ newline +:+ "Hello"
      +:+ newline +:+ "Stop reason: end_turn" +:+ newline.
Proof.
  cbv zeta. unfold outcome, after. rewrite !consume_wire. cbn [fst snd].
  rewrite !stdout_emit, deltas_app, deltas_flat_map.
  repeat split; reflexivity.
Qed.

(** C5 as stated fails: a stream that ends after a start and one delta,
    with no stop event, is consumed without any error. *)
Lemma close_without_stop_is_silent :
  let s := EventStream (map wire [MessageStart "assistant"; ContentDelta "Hel"])
                       None in
  outcome (consume repr_unused s) (notebook_with fresh_messages) = Ok tt /\
  ~ (exists e, outcome (consume repr_unused s) (notebook_with fresh_messages)
               = Raise e).
Proof.
  cbv zeta. split; [reflexivity |].
  intros [e He]. vm_compute in He. discriminate He.
Qed.

(** C6: with the metadata event after the stop event or before it, the
    consumer finishes, prints the three token counts and the latency
    that are present and nothing for those absent, and prints the same
    delta texts. *)
Theorem metadata_either_side_of_stop (py_repr : value -> string)
    (before between rest : list StreamEvent) (reason : string)
    (usage : option token_usage) (latencyMs : option Z) (st : notebook) :
  let stop := MessageStop reason in
  let metadata := Metadata usage latencyMs in
  let trailing := before ++ [stop] ++ between ++ [metadata] ++ rest in
  let leading := before ++ [metadata] ++ between ++ [stop] ++ rest in
  let run evs := consume py_repr (EventStream (map wire evs) None) in
  outcome (run trailing) st = Ok tt /\
  outcome (run leading) st = Ok tt /\
  stdout (after (run trailing) st) =
    stdout st ++ flat_map prints_of before
      ++ prints_of stop
      ++ flat_map prints_of between
      ++ (usage_prints usage ++ latency_prints latencyMs)
      ++ flat_map prints_of rest /\
  stdout (after (run leading) st) =
    stdout st ++ flat_map prints_of before
      ++ (usage_prints usage ++ latency_prints latencyMs)
      ++ flat_map prints_of between
      ++ prints_of stop
      ++ flat_map prints_of rest /\
  deltas (stdout (after (run trailing) st)) =
    deltas (stdout (after (run leading) st)) /\
  usage_prints None = [] /\ latency_prints None = [].
Proof.
  cbv zeta. unfold outcome, after. rewrite !consume_wire. cbn [fst snd].
  rewrite !stdout_emit, !deltas_app, !deltas_flat_map.
  rewrite !flat_map_app. cbn [flat_map prints_of].
  unfold delta_texts. rewrite !flat_map_app. cbn [flat_map].
  rewrite <- !app_assoc. cbn [app].
  repeat split; reflexivity.
Qed.

(** ** Frames *)

(** A relation between the notebook before and after that every step of
    a cell respects is respected by the cell, whether it raises or not. *)
Section Frame.

Variable R : notebook -> notebook -> Prop.
Hypothesis R_refl : forall st, R st st.
Hypothesis R_trans : forall st1 st2 st3, R st1 st2 -> R st2 st3 -> R st1 st3.
Hypothesis R_print : forall p st, R st (write_stdout p st).
Hypothesis R_log : forall c st, R st (log_call c st).
Hypothesis R_text : forall t st, R st (set_content_text t st).

Lemma respects_ret {A : Type} (a : A) : respects R (mret a : nb A).
Proof. intros st. apply R_refl. Qed.

Lemma respects_lift {A : Type} (r : result A) : respects R (lift r).
Proof. intros st. apply R_refl. Qed.

Lemma respects_print (text end_ : string) : respects R (print text end_).
Proof. intros st. apply R_print. Qed.

Lemma respects_bind {A B : Type} (m : nb A) (f : A -> nb B) :
  respects R m -> (forall a, respects R (f a)) -> respects R (m ≫= f).
Proof.
  intros Hm Hf st. unfold after. rewrite run_bind.
  specialize (Hm st). unfold after in Hm.
  destruct (m st) as [[a | e] st']; cbn [snd] in *.
  - eapply R_trans; [exact Hm | apply Hf].
  - exact Hm.
Qed.

Lemma respects_on_event (py_repr : value -> string) (event : gmap string value) :
  respects R (on_event py_repr event).
Proof.
  unfold on_event, on_message_start, on_content_block_delta, on_message_stop,
    on_metadata, print_usage.
  repeat apply respects_bind; intros;
    repeat match goal with
           | |- respects R (match ?x with _ => _ end) => destruct x
           | |- respects R (if ?b then _ else _) => destruct b
           | |- respects R (_ ≫= _) => apply respects_bind; intros
           | |- respects R (lift _) => apply respects_lift
           | |- respects R (print _ _) => apply respects_print
           | |- respects R (mret _) => apply respects_ret
           end.
Qed.

Lemma respects_for_events (py_repr : value -> string)
    (evs : list (gmap string value)) :
  respects R (for_events py_repr evs).
Proof.
  induction evs as [ | event evs IH]; cbn [for_events].
  - apply respects_ret.
  - apply respects_bind; [apply respects_on_event | intros _; exact IH].
Qed.

Lemma respects_consume (py_repr : value -> string) (s : event_stream) :
  respects R (consume py_repr s).
Proof.
  unfold consume. apply respects_bind; [apply respects_for_events |].
  intros _. destruct (failure s); [apply respects_lift | apply respects_ret].
Qed.

Lemma respects_call_converse (client : nat -> request -> result value) :
  respects R (call_converse client).
Proof. intros st. apply R_log. Qed.

Lemma respects_converse_once (client : nat -> request -> result value) :
  respects R (converse_once client).
Proof.
  unfold converse_once.
  apply respects_bind; [apply respects_call_converse | intros resp].
  apply respects_bind; [apply respects_lift | intros text].
  apply respects_bind; [ | intros _; apply respects_ret].
  intros st. apply R_text.
Qed.

Lemma respects_cell_converse_followup (client : nat -> request -> result value) :
  respects R (cell_converse_followup client).
Proof.
  unfold cell_converse_followup.
  apply respects_bind; [apply respects_converse_once | intros resp].
  apply respects_bind; [apply respects_print | intros _; apply respects_ret].
Qed.

Lemma respects_cell_converse_stream (py_repr : value -> string)
    (client : nat -> request -> result stream_response) :
  respects R (cell_converse_stream py_repr client).
Proof.
  unfold cell_converse_stream.
  apply respects_bind; [intros st; apply R_log | intros resp].
  destruct (stream resp); [apply respects_consume | apply respects_ret].
Qed.

End Frame.

Lemma same_messages_frame {A : Type} (m : nb A) :
  respects same_messages m -> forall st, messages (after m st) = messages st.
Proof. intros H st. exact (H st). Qed.

Lemma cell_converse_messages (client : nat -> request -> result value)
    (st : notebook) :
  messages (after (cell_converse client) st) = messages st.
Proof.
  apply same_messages_frame, respects_converse_once;
    unfold same_messages; try reflexivity; congruence.
Qed.

Lemma cell_converse_followup_messages (client : nat -> request -> result value)
    (st : notebook) :
  messages (after (cell_converse_followup client) st) = messages st.
Proof.
  apply same_messages_frame, respects_cell_converse_followup;
    unfold same_messages; try reflexivity; congruence.
Qed.

Lemma cell_converse_stream_messages (py_repr : value -> string)
    (client : nat -> request -> result stream_response) (st : notebook) :
  messages (after (cell_converse_stream py_repr client) st) = messages st.
Proof.
  apply same_messages_frame, respects_cell_converse_stream;
    unfold same_messages; try reflexivity; congruence.
Qed.

(** Each request cell calls the client once, whatever comes back. *)
Lemma converse_once_log (client : nat -> request -> result value)
    (st : notebook) :
  api_log (after (converse_once client) st) =
    api_log st ++ [Converse (request_of st)].
Proof.
  unfold after, converse_once. rewrite run_bind. unfold call_converse.
  destruct (client _ _) as [resp | e]; [ | reflexivity].
  rewrite run_bind. unfold lift.
  destruct (extract_text resp); reflexivity.
Qed.

Lemma cell_converse_followup_log (client : nat -> request -> result value)
    (st : notebook) :
  api_log (after (cell_converse_followup client) st) =
    api_log st ++ [Converse (request_of st)].
Proof.
  unfold after, cell_converse_followup. rewrite run_bind.
  pose proof (converse_once_log client st) as Hlog. unfold after in Hlog.
  destruct (converse_once client st) as [[resp | e] st']; cbn [snd] in *.
  - exact Hlog.
  - exact Hlog.
Qed.

(** An exception raised by the client ends the cell with that exception. *)
Lemma client_error_surfaces (client : nat -> request -> result value)
    (st : notebook) (e : exn) :
  client (length (api_log st)) (request_of st) = Raise e ->
  outcome (cell_converse client) st = Raise e /\
  outcome (cell_converse_followup client) st = Raise e.
Proof.
  intros H. unfold outcome, cell_converse_followup, cell_converse, converse_once.
  rewrite !run_bind. unfold call_converse. rewrite H. split; reflexivity.
Qed.

(** C7: neither request cell changes [messages]; after a blocking and a
    streamed request the follow-up question is appended at the end of
    the same turn, and the next request carries that longer turn. *)
Theorem requests_read_appends_grow (py_repr : value -> string)
    (client_converse : nat -> request -> result value)
    (client_converse_stream : nat -> request -> result stream_response)
    (st : notebook) (c : list value) :
  turn_content (messages st) = Some c ->
  let st1 := after (cell_converse client_converse) st in
  let st2 := after (cell_converse_stream py_repr client_converse_stream) st1 in
  let st3 := after (cell_query followup_question) st2 in
  let st4 := after (cell_converse_followup client_converse) st3 in
  (forall st', messages (after (cell_converse client_converse) st') = messages st') /\
  (forall st', messages (after (cell_converse_stream py_repr client_converse_stream) st')
               = messages st') /\
  (forall st', messages (after (cell_converse_followup client_converse) st')
               = messages st') /\
  turn_content (messages st3) = Some (c ++ [text_block followup_question]) /\
  messages st4 = messages st3 /\
  exists r,
    last (api_log st4) = Some (Converse r) /\
    turn_content (req_messages r) = Some (c ++ [text_block followup_question]).
Proof.
  intros Hc st1 st2 st3 st4.
  assert (H2 : messages st2 = messages st).
  { unfold st2, st1.
    now rewrite cell_converse_stream_messages, cell_converse_messages. }
  assert (H3 : turn_content (messages st3) = Some (c ++ [text_block followup_question])).
  { unfold st3, after, cell_query.
    rewrite (content_append_run _ st2 c) by now rewrite H2.
    cbn [snd set_messages messages]. rewrite H2.
    now apply turn_content_store with (c := c). }
  split; [apply cell_converse_messages |].
  split; [apply cell_converse_stream_messages |].
  split; [apply cell_converse_followup_messages |].
  split; [exact H3 |].
  split; [apply cell_converse_followup_messages |].
  exists (request_of st3). split.
  - unfold st4. rewrite cell_converse_followup_log. apply last_snoc.
  - exact H3.
Qed.

(** ** One event, four independent tests *)

Lemma lookup_only (k k' : string) (event : gmap string value) :
  only k event !! k' = if decide (k' = k) then event !! k' else None.
Proof.
  unfold only. apply option_eq. intros v.
  rewrite map_lookup_filter_Some. cbn [fst].
  destruct (decide (k' = k)) as [Heq | Hne].
  - split; [intros [H _]; exact H | intros H; split; [exact H | exact Heq]].
  - split; [intros [_ H]; contradiction | discriminate].
Qed.

Lemma four_steps_split (a b c d a' b' c' d' : nb unit) (st : notebook) :
  (forall s, a' s = (Ok tt, s)) -> (forall s, b' s = (Ok tt, s)) ->
  (forall s, c' s = (Ok tt, s)) -> (forall s, d' s = (Ok tt, s)) ->
  (a ;; b ;; c ;; d) st =
  ((a ;; b' ;; c' ;; d') ;; (a' ;; b ;; c' ;; d') ;;
   (a' ;; b' ;; c ;; d') ;; (a' ;; b' ;; c' ;; d)) st.
Proof.
  intros Ha Hb Hc Hd. unfold mbind, nb_bind.
  destruct (a st) as [[[] | e] s1]; cbv beta iota; [ | reflexivity].
  repeat (first [rewrite Ha | rewrite Hb | rewrite Hc | rewrite Hd];
          cbv beta iota).
  destruct (b s1) as [[[] | e] s2]; cbv beta iota; [ | reflexivity].
  repeat (first [rewrite Ha | rewrite Hb | rewrite Hc | rewrite Hd];
          cbv beta iota).
  destruct (c s2) as [[[] | e] s3]; cbv beta iota; [ | reflexivity].
  repeat (first [rewrite Ha | rewrite Hb | rewrite Hc | rewrite Hd];
          cbv beta iota).
  destruct (d s3) as [[[] | e] s4]; reflexivity.
Qed.

Lemma on_event_several (py_repr : value -> string)
    (start delta stop : option string)
    (metadata : option (option token_usage * option Z))
    (extra : gmap string value) (st : notebook) :
  extra !! "messageStart" = None -> extra !! "contentBlockDelta" = None ->
  extra !! "messageStop" = None -> extra !! "metadata" = None ->
  on_event py_repr (several start delta stop metadata extra) st =
    (Ok tt, emit (several_prints start delta stop metadata) st).
Proof.
  intros H1 H2 H3 H4.
  unfold on_event, on_message_start, on_content_block_delta, on_message_stop,
    on_metadata, several.
  rewrite !lookup_union, H1, H2, H3, H4.
  destruct start as [role | ], delta as [text | ], stop as [reason | ],
    metadata as [[[u | ] [ms | ]] | ]; vm_compute; reflexivity.
Qed.

(** C10: the four keys are tested one after the other and each test
    that holds acts: handling an event is handling, in the fixed order,
    its messageStart, contentBlockDelta, messageStop and metadata parts;
    an event that carries any of the four keys at once, beside others,
    prints for each key it carries what an event with that key alone
    prints, role, delta text, stop reason, then usage and latency; an
    event with none of the four keys prints nothing and raises nothing. *)
Theorem event_keys_tested_independently (py_repr : value -> string)
    (start delta stop : option string)
    (metadata : option (option token_usage * option Z))
    (extra : gmap string value) (st : notebook) :
  extra !! "messageStart" = None -> extra !! "contentBlockDelta" = None ->
  extra !! "messageStop" = None -> extra !! "metadata" = None ->
  (forall event : gmap string value,
     on_event py_repr event st =
       (on_event py_repr (only "messageStart" event) ;;
        on_event py_repr (only "contentBlockDelta" event) ;;
        on_event py_repr (only "messageStop" event) ;;
        on_event py_repr (only "metadata" event)) st) /\
  on_event py_repr (several start delta stop metadata extra) st =
    (Ok tt,
     emit (match start with
           | Some role => [Print (newline +:+ "Role: " +:+ role) newline]
           | None => []
           end
           ++ match delta with Some text => [Print text ""] | None => [] end
           ++ match stop with
              | Some reason =>
                  [Print (newline +:+ "Stop reason: " +:+ reason) newline]
              | None => []
              end
           ++ match metadata with
              | Some m => usage_prints m.1 ++ latency_prints m.2
              | None => []
              end) st) /\
  on_event py_repr extra st = (Ok tt, st) /\
  on_event py_repr delta_and_stop st =
    (Ok tt, emit [Print "lo" ""; Print (newline +:+ "Stop reason: end_turn") newline] st).
Proof.
  intros H1 H2 H3 H4. repeat apply conj.
  - intros event. unfold on_event at 2 3 4 5.
    unfold on_message_start, on_content_block_delta, on_message_stop, on_metadata.
    rewrite !lookup_only.
    apply four_steps_split; reflexivity.
  - rewrite (on_event_several py_repr start delta stop metadata extra st H1 H2 H3 H4).
    now destruct start, delta, stop, metadata.
  - unfold on_event, on_message_start, on_content_block_delta, on_message_stop,
      on_metadata.
    rewrite H1, H2, H3, H4. reflexivity.
  - vm_compute. reflexivity.
Qed.

(** ** The blocking request *)

Lemma extract_text_blocks (model_response : value) :
  extract_text model_response =
  match response_blocks model_response with
  | Raise e => Raise e
  | Ok blocks =>
      match py_getitem blocks (KInt 0) with
      | Raise e => Raise e
      | Ok block => py_getitem block (KStr "text")
      end
  end.
Proof.
  unfold extract_text, response_blocks.
  destruct (py_getitem model_response (KStr "output")) as [output | e];
    [ | reflexivity].
  destruct (py_getitem output (KStr "message")) as [message | e];
    reflexivity.
Qed.

Lemma converse_once_run (client : nat -> request -> result value)
    (st : notebook) (resp : value) :
  client (length (api_log st)) (request_of st) = Ok resp ->
  converse_once client st =
  match extract_text resp with
  | Ok text =>
      (Ok resp, set_content_text text (log_call (Converse (request_of st)) st))
  | Raise e => (Raise e, log_call (Converse (request_of st)) st)
  end.
Proof.
  intros H. unfold converse_once. rewrite run_bind. unfold call_converse.
  rewrite H, run_bind. unfold lift.
  destruct (extract_text resp); reflexivity.
Qed.

(** C2, as the code has it: both blocking request cells yield the text
    of the first content block; on an empty content array they end with
    IndexError, on a first block without a text with KeyError (TypeError
    when the block is no dict), Python's own lookup errors, and
    [content_text] is then not bound to anything, an empty string
    included. *)
Theorem first_block_text_or_failure
    (client : nat -> request -> result value) (st : notebook)
    (resp : value) (blocks : list value) :
  client (length (api_log st)) (request_of st) = Ok resp ->
  response_blocks resp = Ok (VList blocks) ->
  let run := cell_converse client in
  let rerun := cell_converse_followup client in
  match blocks with
  | [] =>
      outcome run st = Raise IndexError /\
      content_text (after run st) = content_text st /\
      outcome rerun st = Raise IndexError /\
      content_text (after rerun st) = content_text st
  | VDict block :: _ =>
      match block !! "text" with
      | Some text =>
          outcome run st = Ok resp /\
          content_text (after run st) = Some text /\
          outcome rerun st = Ok resp /\
          content_text (after rerun st) = Some text
      | None =>
          outcome run st = Raise (KeyError (KStr "text")) /\
          content_text (after run st) = content_text st /\
          outcome rerun st = Raise (KeyError (KStr "text")) /\
          content_text (after rerun st) = content_text st
      end
  | _ :: _ =>
      outcome run st = Raise TypeError /\
      content_text (after run st) = content_text st /\
      outcome rerun st = Raise TypeError /\
      content_text (after rerun st) = content_text st
  end.
Proof.
  intros Hresp Hblocks run rerun.
  unfold run, rerun, outcome, after, cell_converse_followup, cell_converse.
  rewrite run_bind.
  rewrite (converse_once_run _ _ _ Hresp), extract_text_blocks, Hblocks.
  destruct blocks as [ | first rest].
  - cbn [py_getitem]. rewrite py_index_nil. repeat apply conj; reflexivity.
  - cbn [py_getitem]. rewrite py_index_head.
    destruct first as [ | b | z | f | s | bs | l | block];
      try (repeat apply conj; reflexivity).
    cbn [py_getitem]. destruct (block !! "text"); repeat apply conj; reflexivity.
Qed.

(** C2 as stated fails: on an empty content array both request cells end
    with the bare IndexError of the subscript [[0]]; no error of the
    notebook's own is raised in its place. *)
Lemma empty_content_raises_index_error :
  let client := fun (_ : nat) (_ : request) => Ok (response_with []) in
  outcome (cell_converse client) asked = Raise IndexError /\
  outcome (cell_converse_followup client) asked = Raise IndexError /\
  forall e, outcome (cell_converse client) asked = Raise e -> e = IndexError.
Proof.
  cbv zeta. repeat apply conj.
  - vm_compute. reflexivity.
  - vm_compute. reflexivity.
  - intros e He. vm_compute in He. now injection He as <-.
Qed.

(** ** Attaching a document *)

(** C4, as the code has it: a document is appended whatever its bytes,
    empty ones included, always with the format "pdf"; it becomes the
    last block of the turn and its bytes read back as they were passed. *)
Theorem document_appended_unchecked (file_name : string)
    (pdf_file_object : list byte) (st : notebook) (c : list value) :
  turn_content (messages st) = Some c ->
  let run := append_document file_name pdf_file_object in
  outcome run st = Ok tt /\
  exists block document source,
    turn_content (messages (after run st)) = Some (c ++ [block]) /\
    py_getitem block (KStr "document") = Ok document /\
    py_getitem document (KStr "name") = Ok (VStr file_name) /\
    py_getitem document (KStr "format") = Ok (VStr "pdf") /\
    py_getitem document (KStr "source") = Ok source /\
    py_getitem source (KStr "bytes") = Ok (VBytes pdf_file_object).
Proof.
  intros Hc run. unfold run, outcome, after, append_document.
  rewrite (content_append_run _ st c Hc). cbn [fst snd].
  split; [reflexivity |].
  eexists _, _, _. split.
  - cbn [set_messages messages]. now apply turn_content_store with (c := c).
  - repeat split; vm_compute; reflexivity.
Qed.

(** C4 as stated fails: a report whose download has status 200 and an
    empty body is appended, with no bytes, without any error. *)
Lemma empty_document_accepted :
  let st := after cell_messages (notebook_with VNone) in
  let get := fun _ : string => Ok (HttpResponse 200 []) in
  outcome (append_document "Amazon-2024-Annual-Report" []) st = Ok tt /\
  turn_content (messages (after (append_document "Amazon-2024-Annual-Report" []) st))
    = Some [document_block "Amazon-2024-Annual-Report" []] /\
  outcome (cell_reports get) st = Ok tt /\
  turn_content (messages (after (cell_reports get) st))
    = Some [document_block "Amazon-2024-Annual-Report" [];
            document_block "Amazon-com-Inc-2023-Annual-Report" []].
Proof. cbv zeta. repeat split; vm_compute; reflexivity. Qed.

(** ** The name of a downloaded report *)

Lemma str_split_nonempty (sep : ascii) (s : string) : str_split sep s <> [].
Proof.
  destruct s as [ | c rest]; cbn [str_split]; [discriminate |].
  destruct (Ascii.eqb c sep); [discriminate |].
  destruct (str_split sep rest); discriminate.
Qed.

Lemma str_split_join (sep : ascii) (s : string) : join sep (str_split sep s) = s.
Proof.
  induction s as [ | c rest IH]; [reflexivity |].
  cbn [str_split]. destruct (Ascii.eqb_spec c sep) as [-> | Hne].
  - pose proof (str_split_nonempty sep rest) as Hnil.
    cbn [join]. destruct (str_split sep rest) as [ | seg segs]; [congruence |].
    now rewrite IH.
  - pose proof (str_split_nonempty sep rest) as Hnil.
    destruct (str_split sep rest) as [ | seg segs]; [congruence |].
    rewrite <- IH. destruct segs; reflexivity.
Qed.

Lemma str_split_segments (sep : ascii) (s : string) :
  Forall (fun seg => ~ occurs sep seg) (str_split sep s).
Proof.
  induction s as [ | c rest IH]; cbn [str_split].
  - constructor; [ | constructor]. intros [].
  - destruct (Ascii.eqb_spec c sep) as [-> | Hne].
    + constructor; [intros [] | exact IH].
    + destruct (str_split sep rest) as [ | seg segs].
      * constructor; [ | constructor]. intros [H | []]. congruence.
      * inversion IH as [ | ? ? Hseg Hsegs]; subst.
        constructor; [ | exact Hsegs].
        intros [H | H]; [congruence | exact (Hseg H)].
Qed.

Lemma append_assoc (s1 s2 s3 : string) :
  (s1 +:+ s2) +:+ s3 = s1 +:+ (s2 +:+ s3).
Proof.
  induction s1 as [ | c s1 IH]; [reflexivity |].
  change (String c ((s1 +:+ s2) +:+ s3) = String c (s1 +:+ (s2 +:+ s3))).
  now rewrite IH.
Qed.

Lemma join_snoc (sep : ascii) (init : list string) (seg : string) :
  join sep (init ++ [seg]) =
  match init with
  | [] => seg
  | _ :: _ => join sep init +:+ String sep seg
  end.
Proof.
  induction init as [ | x init IH]; [reflexivity |].
  cbn [app join]. destruct init as [ | y init]; [reflexivity |].
  cbn [app] in *. rewrite IH.
  change (join sep (x :: y :: init))
    with (x +:+ String sep (join sep (y :: init))).
  now rewrite append_assoc.
Qed.

Lemma py_index_last {A : Type} (l : list A) :
  py_index l (-1) =
  match last l with
  | Some x => Ok x
  | None => Raise IndexError
  end.
Proof.
  unfold py_index. replace (-1 <? 0) with true by reflexivity.
  destruct l as [ | x l]; [reflexivity |].
  rewrite last_lookup.
  replace (Z.to_nat (-1 + Z.of_nat (length (x :: l)))) with (pred (length (x :: l)))
    by (cbn [length]; lia).
  replace (-1 + Z.of_nat (length (x :: l)) <? 0) with false
    by (symmetry; apply Z.ltb_ge; cbn [length]; lia).
  replace (Z.of_nat (length (x :: l)) <=? -1 + Z.of_nat (length (x :: l)))
    with false by (symmetry; apply Z.leb_gt; lia).
  cbn [orb]. reflexivity.
Qed.

(** The name is what stands between the last "/" of the URL and the
    first "." after it. *)
Lemma file_name_of_spec (report_url : string) :
  exists segment name,
    file_name_of report_url = Ok name /\
    (report_url = segment \/
     exists path, report_url = path +:+ String "/" segment) /\
    ~ occurs "/" segment /\
    (segment = name \/ exists suffix, segment = name +:+ String "." suffix) /\
    ~ occurs "." name.
Proof.
  unfold file_name_of. rewrite py_index_last.
  pose proof (str_split_join "/" report_url) as Hjoin.
  pose proof (str_split_segments "/" report_url) as Hsegs.
  pose proof (str_split_nonempty "/" report_url) as Hnil.
  destruct (str_split "/" report_url) as [ | segment init] using rev_ind;
    [congruence |].
  rewrite last_snoc.
  pose proof (str_split_join "." segment) as Hjoin'.
  pose proof (str_split_segments "." segment) as Hsegs'.
  pose proof (str_split_nonempty "." segment) as Hnil'.
  destruct (str_split "." segment) as [ | name tl]; [congruence |].
  exists segment, name. rewrite py_index_head.
  split; [reflexivity |]. split; [ | split; [ | split]].
  - rewrite join_snoc in Hjoin. destruct init; [now left | right; eauto].
  - apply Forall_app in Hsegs. destruct Hsegs as [_ H].
    now inversion H.
  - cbn [join] in Hjoin'. destruct tl; [now left | right; eauto].
  - now inversion Hsegs'.
Qed.

Lemma load_report_run (requests_get : string -> result http_response)
    (report_url name : string) (response : http_response)
    (st : notebook) (c : list value) :
  file_name_of report_url = Ok name ->
  requests_get report_url = Ok response ->
  raise_for_status response = Ok tt ->
  turn_content (messages st) = Some c ->
  load_report requests_get report_url st =
    (Ok tt,
     set_messages
       (store_content (c ++ [document_block name (content response)]) (messages st))
       (write_stdout (Print name newline) st)).
Proof.
  intros Hname Hget Hstatus Hc. unfold load_report.
  rewrite run_bind. unfold lift at 1. rewrite Hname.
  rewrite run_bind, run_print.
  rewrite run_bind. unfold lift at 1. rewrite Hget.
  rewrite run_bind. unfold lift at 1. rewrite Hstatus.
  unfold append_document.
  now rewrite (content_append_run _ (write_stdout (Print name newline) st) c).
Qed.

Lemma document_block_holds (name : string) (bytes : list byte) :
  holds_document (document_block name bytes) name bytes.
Proof.
  exists (VDict {[ "name" := VStr name; "format" := VStr "pdf";
                   "source" := VDict {[ "bytes" := VBytes bytes ]} ]}),
         (VDict {[ "bytes" := VBytes bytes ]}).
  repeat apply conj; vm_compute; reflexivity.
Qed.

(** C9: the document appended for a downloaded report is named by the
    URL alone: read back from the turn, its name is the part of the URL
    after its last "/", cut at its first "."; for the first report that
    is "Amazon-2024-Annual-Report". *)
Theorem document_name_from_url (requests_get : string -> result http_response)
    (report_url : string) (response : http_response)
    (st : notebook) (c : list value) :
  turn_content (messages st) = Some c ->
  requests_get report_url = Ok response ->
  raise_for_status response = Ok tt ->
  exists segment name block,
    file_name_of report_url = Ok name /\
    (report_url = segment \/
     exists path, report_url = path +:+ String "/" segment) /\
    ~ occurs "/" segment /\
    (segment = name \/ exists suffix, segment = name +:+ String "." suffix) /\
    ~ occurs "." name /\
    turn_content (messages (after (load_report requests_get report_url) st))
      = Some (c ++ [block]) /\
    holds_document block name (content response) /\
    head (fmap file_name_of reports) = Some (Ok "Amazon-2024-Annual-Report").
Proof.
  intros Hc Hget Hstatus.
  destruct (file_name_of_spec report_url)
    as (segment & name & Hname & Hseg & Hslash & Hcut & Hdot).
  exists segment, name, (document_block name (content response)).
  repeat (split; [assumption |]).
  split; [ | split; [apply document_block_holds | reflexivity]].
  unfold after. rewrite (load_report_run _ _ name response st c) by assumption.
  cbn [snd set_messages messages write_stdout].
  now apply turn_content_store with (c := c).
Qed.

(** ** Errors and calls *)

Lemma stdout_extended_refl (st : notebook) : stdout_extended st st.
Proof. exists []. now rewrite app_nil_r. Qed.

Lemma stdout_extended_trans (st1 st2 st3 : notebook) :
  stdout_extended st1 st2 -> stdout_extended st2 st3 -> stdout_extended st1 st3.
Proof.
  intros [ps Hps] [qs Hqs]. exists (ps ++ qs).
  now rewrite Hqs, Hps, app_assoc.
Qed.

(** Whatever the events are, consuming a stream only adds prints. *)
Lemma consume_keeps_prints (py_repr : value -> string) (s : event_stream)
    (st : notebook) :
  stdout_extended st (after (consume py_repr s) st).
Proof.
  apply respects_consume.
  - apply stdout_extended_refl.
  - apply stdout_extended_trans.
  - intros p st'. now exists [p].
Qed.

Lemma consume_log (py_repr : value -> string) (s : event_stream)
    (st : notebook) :
  api_log (after (consume py_repr s) st) = api_log st.
Proof.
  apply (respects_consume same_log); unfold same_log;
    [reflexivity | congruence | reflexivity].
Qed.

Lemma cell_converse_stream_log (py_repr : value -> string)
    (client : nat -> request -> result stream_response) (st : notebook) :
  api_log (after (cell_converse_stream py_repr client) st) =
    api_log st ++ [ConverseStream (request_of st)].
Proof.
  unfold after, cell_converse_stream. rewrite run_bind.
  unfold call_converse_stream.
  destruct (client _ _) as [resp | e]; [ | reflexivity].
  destruct (stream resp) as [s | ]; [ | reflexivity].
  apply (consume_log py_repr s (log_call (ConverseStream (request_of st)) st)).
Qed.

(** C5, as the code has it: when the iterator raises, the exception
    reaches the caller and everything printed for the events delivered
    before it stays printed; whatever the events are, what was printed
    is never taken back; a stream that just ends, with or without a stop
    event, ends the loop normally. *)
Theorem stream_failure_keeps_output (py_repr : value -> string)
    (evs : list StreamEvent) (e : exn) (st : notebook) :
  let broken := consume py_repr (EventStream (map wire evs) (Some e)) in
  let ended := consume py_repr (EventStream (map wire evs) None) in
  outcome broken st = Raise e /\
  stdout (after broken st) = stdout st ++ flat_map prints_of evs /\
  deltas (stdout (after broken st)) = deltas (stdout st) ++ delta_texts evs /\
  outcome ended st = Ok tt /\
  forall s : event_stream,
    exists ps, stdout (after (consume py_repr s) st) = stdout st ++ ps.
Proof.
  cbv zeta. split; [ | split; [ | split; [ | split]]].
  - unfold outcome. now rewrite consume_wire.
  - unfold after. rewrite consume_wire. apply stdout_emit.
  - unfold after. rewrite consume_wire. cbn [snd].
    now rewrite stdout_emit, deltas_app, deltas_flat_map.
  - unfold outcome. now rewrite consume_wire.
  - intros s. apply consume_keeps_prints.
Qed.

Lemma stream_client_error_surfaces (py_repr : value -> string)
    (client : nat -> request -> result stream_response) (st : notebook)
    (e : exn) :
  client (length (api_log st)) (request_of st) = Raise e ->
  outcome (cell_converse_stream py_repr client) st = Raise e.
Proof.
  intros H. unfold outcome, cell_converse_stream. rewrite run_bind.
  unfold call_converse_stream. now rewrite H.
Qed.

Lemma two_attempts_at_most {A : Type} (default : Z) (retryable : exn -> bool)
    (send : nat -> result A) :
  with_retries default bedrock_config retryable send =
  match send 0%nat with
  | Ok a => (Ok a, 1%nat)
  | Raise e => if retryable e then (send 1%nat, 2%nat) else (Raise e, 1%nat)
  end.
Proof.
  unfold with_retries.
  replace (Z.to_nat (total_max_attempts default bedrock_config - 1)) with 1%nat
    by (vm_compute; reflexivity).
  cbn [attempts]. destruct (send 0%nat) as [a | e]; [reflexivity |].
  destruct (retryable e); [ | reflexivity].
  now destruct (send 1%nat).
Qed.

(** C8, as the code has it: the notebook catches nothing and calls the
    client once per request cell, so what the client raises ends the
    cell; the client, created with retries={'max_attempts': 1}, makes
    one or two HTTP attempts per call: an answer or a failure that is
    not retried reaches the caller after one attempt, a failure that is
    retried is followed by a second attempt, and the caller gets what
    the second attempt came back with. *)
Theorem one_retry_then_surface (py_repr : value -> string)
    (default : Z) (retryable : exn -> bool)
    (send : nat -> nat -> request -> result value)
    (send_stream : nat -> nat -> request -> result stream_response)
    (st : notebook) :
  let n := length (api_log st) in
  let r := request_of st in
  let client := bedrock_client default retryable send in
  let stream_client := bedrock_client default retryable send_stream in
  let blocking := cell_converse client in
  let followup := cell_converse_followup client in
  let streamed := cell_converse_stream py_repr stream_client in
  total_max_attempts default bedrock_config = 2 /\
  api_log (after blocking st) = api_log st ++ [Converse r] /\
  api_log (after followup st) = api_log st ++ [Converse r] /\
  api_log (after streamed st) = api_log st ++ [ConverseStream r] /\
  (forall e, client n r = Raise e ->
     outcome blocking st = Raise e /\ outcome followup st = Raise e) /\
  (forall e, stream_client n r = Raise e -> outcome streamed st = Raise e) /\
  (1 <= http_attempts default retryable send n r <= 2)%nat /\
  (1 <= http_attempts default retryable send_stream n r <= 2)%nat /\
  match send n 0%nat r with
  | Ok resp =>
      client n r = Ok resp /\
      http_attempts default retryable send n r = 1%nat
  | Raise e =>
      if retryable e
      then client n r = send n 1%nat r /\
           http_attempts default retryable send n r = 2%nat
      else client n r = Raise e /\
           http_attempts default retryable send n r = 1%nat
  end.
Proof.
  cbv zeta.
  split; [vm_compute; reflexivity |].
  split; [apply converse_once_log |].
  split; [apply cell_converse_followup_log |].
  split; [apply cell_converse_stream_log |].
  split; [intros e H; now apply client_error_surfaces |].
  split; [intros e H; now apply stream_client_error_surfaces |].
  unfold bedrock_client, http_attempts. rewrite !two_attempts_at_most.
  split.
  { destruct (send _ _ _) as [a | e]; [cbn; lia |].
    destruct (retryable e); cbn; lia. }
  split.
  { destruct (send_stream _ _ _) as [a | e]; [cbn; lia |].
    destruct (retryable e); cbn; lia. }
  destruct (send _ _ _) as [a | e]; [split; reflexivity |].
  destruct (retryable e); split; reflexivity.
Qed.

(** C8 as stated fails: a first attempt that is throttled is not raised
    to the caller; the client tries again, two HTTP attempts are made
    for the one request, and the cell ends normally with the answer of
    the second. *)
Lemma throttled_attempt_is_retried :
  let client := bedrock_client 5 retries_throttling throttled_once in
  throttled_once (length (api_log asked)) 0 (request_of asked)
    = Raise (ClientError "ThrottlingException") /\
  outcome (cell_converse client) asked = Ok hello_response /\
  http_attempts 5 retries_throttling throttled_once
    (length (api_log asked)) (request_of asked) = 2%nat.
Proof. cbv zeta. repeat apply conj; vm_compute; reflexivity. Qed.

(** ** The theorems at concrete inputs *)

Lemma first_block_text_or_failure_witness :
  outcome (cell_converse (fun _ _ => Ok hello_response)) asked = Ok hello_response /\
  content_text (after (cell_converse (fun _ _ => Ok hello_response)) asked)
    = Some (VStr "Hello") /\
  outcome (cell_converse_followup (fun _ _ => Ok hello_response)) asked
    = Ok hello_response /\
  content_text (after (cell_converse_followup (fun _ _ => Ok hello_response)) asked)
    = Some (VStr "Hello").
Proof.
  exact (first_block_text_or_failure (fun _ _ => Ok hello_response) asked
           hello_response [text_block "Hello"] eq_refl eq_refl).
Defined.

Lemma document_appended_unchecked_witness :
  turn_content (messages asked) = Some [text_block "Analyze the reports."] /\
  outcome (append_document "Amazon-2024-Annual-Report" [x25; x50; x44; x46]) asked
    = Ok tt.
Proof.
  split; [reflexivity |].
  exact (proj1 (document_appended_unchecked "Amazon-2024-Annual-Report"
                  [x25; x50; x44; x46] asked
                  [text_block "Analyze the reports."] eq_refl)).
Defined.

Lemma requests_read_appends_grow_witness :
  let st3 :=
    after (cell_query followup_question)
      (after (cell_converse_stream repr_unused (fun _ _ => Ok hello_stream))
         (after (cell_converse (fun _ _ => Ok hello_response)) asked)) in
  turn_content (messages asked) = Some [text_block "Analyze the reports."] /\
  turn_content (messages st3) =
    Some ([text_block "Analyze the reports."] ++ [text_block followup_question]).
Proof.
  cbv zeta. split; [reflexivity |].
  exact (proj1 (proj2 (proj2 (proj2
    (requests_read_appends_grow repr_unused (fun _ _ => Ok hello_response)
       (fun _ _ => Ok hello_stream) asked
       [text_block "Analyze the reports."] eq_refl))))).
Defined.

Lemma event_keys_tested_independently_witness :
  let extra : gmap string value :=
    {[ "contentBlockStop" := VDict {[ "contentBlockIndex" := VInt 0 ]} ]} in
  on_event repr_unused
    (several (Some "assistant") (Some "lo") (Some "end_turn")
       (Some (Some (TokenUsage 12 3 15), Some 250)) extra) asked =
    (Ok tt,
     emit [ Print (newline +:+ "Role: assistant") newline;
            Print "lo" "";
            Print (newline +:+ "Stop reason: end_turn") newline;
            Print (newline +:+ "Token usage") newline;
            Print "Input tokens: 12" newline;
            Print ":Output tokens: 3" newline;
            Print ":Total tokens: 15" newline;
            Print "Latency: 250 milliseconds" newline ] asked) /\
  on_event repr_unused extra asked = (Ok tt, asked).
Proof.
  cbv zeta.
  pose proof (event_keys_tested_independently repr_unused
    (Some "assistant") (Some "lo") (Some "end_turn")
    (Some (Some (TokenUsage 12 3 15), Some 250))
    {[ "contentBlockStop" := VDict {[ "contentBlockIndex" := VInt 0 ]} ]} asked
    eq_refl eq_refl eq_refl eq_refl) as (_ & Hall & Hnone & _).
  exact (conj Hall Hnone).
Defined.

Lemma document_name_from_url_witness :
  turn_content (messages asked) = Some [text_block "Analyze the reports."] /\
  raise_for_status pdf_response = Ok tt /\
  exists name block,
    file_name_of "https://s2.q4cdn.com/299287126/files/doc_financials/2025/ar/Amazon-2024-Annual-Report.pdf"
      = Ok name /\
    ~ occurs "." name /\
    turn_content (messages (after (load_report (fun _ => Ok pdf_response)
      "https://s2.q4cdn.com/299287126/files/doc_financials/2025/ar/Amazon-2024-Annual-Report.pdf") asked))
      = Some ([text_block "Analyze the reports."] ++ [block]) /\
    holds_document block name (content pdf_response).
Proof.
  split; [reflexivity | split; [reflexivity |]].
  destruct (document_name_from_url (fun _ => Ok pdf_response)
    "https://s2.q4cdn.com/299287126/files/doc_financials/2025/ar/Amazon-2024-Annual-Report.pdf"
    pdf_response asked [text_block "Analyze the reports."]
    eq_refl eq_refl eq_refl)
    as (segment & name & block & Hname & _ & _ & _ & Hdot & Hturn & Hdoc & _).
  exists name, block.
  split; [exact Hname | split; [exact Hdot | split; [exact Hturn | exact Hdoc]]].
Defined.

Lemma one_retry_then_surface_witness :
  outcome (cell_converse (bedrock_client 5 retries_throttling rejecting)) asked
    = Raise (ClientError "ValidationException").
Proof.
  pose proof (one_retry_then_surface repr_unused 5 retries_throttling rejecting
                (fun _ _ _ => Ok hello_stream) asked)
    as (_ & _ & _ & _ & Hsurface & _).
  exact (proj1 (Hsurface (ClientError "ValidationException") eq_refl)).
Defined.

(** ** More on the stream loop *)

Lemma for_events_app (py_repr : value -> string)
    (evs evs' : list (gmap string value)) (st : notebook) :
  for_events py_repr (evs ++ evs') st =
    (for_events py_repr evs ;; for_events py_repr evs') st.
Proof.
  revert st. induction evs as [ | event evs IH]; intros st.
  - reflexivity.
  - cbn [app for_events]. rewrite !run_bind.
    destruct (on_event py_repr event st) as [[[] | e] st1]; [ | reflexivity].
    rewrite IH, run_bind. reflexivity.
Qed.

(** X7: consuming a stream whose events come in two parts is looping over
    the first part and then, when that did not raise, consuming the
    rest: an exception in the first part keeps the second from being
    read, and the events may be any dicts. *)
Theorem consume_in_two_parts (py_repr : value -> string)
    (evs evs' : list (gmap string value)) (ending : option exn)
    (st : notebook) :
  consume py_repr (EventStream (evs ++ evs') ending) st =
    (for_events py_repr evs ;; consume py_repr (EventStream evs' ending)) st.
Proof.
  unfold consume. cbn [events failure].
  rewrite !run_bind, for_events_app, run_bind.
  destruct (for_events py_repr evs st) as [[[] | e] st1]; [ | reflexivity].
  now rewrite run_bind.
Qed.

(** X8: a key other than the four the loop tests makes no difference to how
    an event is handled. *)
Theorem unrecognised_key_ignored (py_repr : value -> string)
    (event : gmap string value) (k : string) (v : value) (st : notebook) :
  k <> "messageStart" -> k <> "contentBlockDelta" ->
  k <> "messageStop" -> k <> "metadata" ->
  on_event py_repr (<[k := v]> event) st = on_event py_repr event st.
Proof.
  intros H1 H2 H3 H4.
  unfold on_event, on_message_start, on_content_block_delta, on_message_stop,
    on_metadata.
  now rewrite !lookup_insert_ne by assumption.
Qed.

Lemma unrecognised_key_ignored_witness :
  on_event repr_unused
    (<["contentBlockStop" := VDict {[ "contentBlockIndex" := VInt 0 ]}]>
       (wire (ContentDelta "lo"))) asked
  = on_event repr_unused (wire (ContentDelta "lo")) asked.
Proof.
  apply (unrecognised_key_ignored repr_unused (wire (ContentDelta "lo"))
           "contentBlockStop"); discriminate.
Defined.

(** X9: a delta event whose delta has no text ends the loop with
    KeyError('text'): what the events before it printed stays, the
    events after it are not handled, and the stream's own ending is not
    reached. *)
Theorem delta_without_text_stops_loop (py_repr : value -> string)
    (evs : list StreamEvent) (event : gmap string value)
    (payload delta : gmap string value)
    (rest : list (gmap string value)) (ending : option exn) (st : notebook) :
  event !! "messageStart" = None ->
  event !! "contentBlockDelta" = Some (VDict payload) ->
  payload !! "delta" = Some (VDict delta) ->
  delta !! "text" = None ->
  let run :=
    consume py_repr (EventStream (map wire evs ++ event :: rest) ending) in
  outcome run st = Raise (KeyError (KStr "text")) /\
  stdout (after run st) = stdout st ++ flat_map prints_of evs.
Proof.
  intros Hstart Hdelta Hpayload Htext run.
  assert (Hev : forall s, on_event py_repr event s
                          = (Raise (KeyError (KStr "text")), s)).
  { intros s. unfold on_event, on_message_start, on_content_block_delta.
    rewrite Hstart, Hdelta. unfold mbind, nb_bind, mret, nb_ret, lift.
    cbn [py_getitem]. rewrite Hpayload. cbn [py_getitem].
    now rewrite Htext. }
  unfold run, outcome, after, consume. cbn [events failure].
  rewrite run_bind, for_events_app, run_bind, for_events_wire.
  cbn [for_events]. rewrite run_bind, Hev. cbn [fst snd].
  split; [reflexivity | apply stdout_emit].
Qed.

Lemma delta_without_text_stops_loop_witness :
  let run :=
    consume repr_unused
      (EventStream (map wire [MessageStart "assistant"; ContentDelta "Hel"]
                    ++ tool_use_event :: [wire (ContentDelta "lo")]) None) in
  outcome run asked = Raise (KeyError (KStr "text")) /\
  stdout (after run asked) =
    stdout asked
      ++ flat_map prints_of [MessageStart "assistant"; ContentDelta "Hel"].
Proof.
  exact (delta_without_text_stops_loop repr_unused
           [MessageStart "assistant"; ContentDelta "Hel"] tool_use_event
           {[ "delta" := VDict {[ "toolUse" := VDict {[ "input" := VStr "{" ]} ]};
              "contentBlockIndex" := VInt 1 ]}
           {[ "toolUse" := VDict {[ "input" := VStr "{" ]} ]}
           [wire (ContentDelta "lo")] None asked
           eq_refl eq_refl eq_refl eq_refl).
Defined.

(** X10: a usage that has the input count but no output count: the heading
    and the input line are printed, then the event ends with
    KeyError('outputTokens'). *)
Theorem usage_without_output_count (py_repr : value -> string)
    (event metadata usage : gmap string value) (count : value)
    (st : notebook) :
  event !! "messageStart" = None ->
  event !! "contentBlockDelta" = None ->
  event !! "messageStop" = None ->
  event !! "metadata" = Some (VDict metadata) ->
  metadata !! "usage" = Some (VDict usage) ->
  usage !! "inputTokens" = Some count ->
  usage !! "outputTokens" = None ->
  on_event py_repr event st =
    (Raise (KeyError (KStr "outputTokens")),
     emit [ Print (newline +:+ "Token usage") newline;
            Print ("Input tokens: " +:+ py_str py_repr count) newline ] st).
Proof.
  intros Hstart Hdelta Hstop Hmeta Husage Hin Hout.
  unfold on_event, on_message_start, on_content_block_delta, on_message_stop,
    on_metadata, print_usage.
  rewrite Hstart, Hdelta, Hstop, Hmeta.
  unfold mbind, nb_bind, mret, nb_ret, lift, print.
  cbn [py_contains py_getitem]. rewrite Husage.
  replace (bool_decide (is_Some (Some (VDict usage)))) with true by reflexivity.
  cbn [py_getitem]. rewrite Hin, Hout. reflexivity.
Qed.

Lemma usage_without_output_count_witness :
  on_event repr_unused input_only_usage asked =
    (Raise (KeyError (KStr "outputTokens")),
     emit [ Print (newline +:+ "Token usage") newline;
            Print "Input tokens: 7" newline ] asked).
Proof.
  exact (usage_without_output_count repr_unused input_only_usage
           {[ "usage" := VDict {[ "inputTokens" := VInt 7 ]} ]}
           {[ "inputTokens" := VInt 7 ]} (VInt 7) asked
           eq_refl eq_refl eq_refl eq_refl eq_refl eq_refl eq_refl).
Defined.

(** ** What is shown *)

Lemma append_empty_r (s : string) : s +:+ "" = s.
Proof.
  induction s as [ | c s IH]; [reflexivity |].
  change (String c (s +:+ "") = String c s). now rewrite IH.
Qed.

Lemma concat_empty_app (l l' : list string) :
  String.concat "" (l ++ l') = String.concat "" l +:+ String.concat "" l'.
Proof.
  induction l as [ | x l IH]; [reflexivity |].
  destruct l as [ | y l].
  - destruct l' as [ | y l']; [ | reflexivity].
    cbn. now rewrite append_empty_r.
  - change (x +:+ String.concat "" ((y :: l) ++ l') =
            (x +:+ String.concat "" (y :: l)) +:+ String.concat "" l').
    now rewrite IH, append_assoc.
Qed.

Lemma shown_app (out out' : list print_call) :
  shown (out ++ out') = shown out +:+ shown out'.
Proof. unfold shown. now rewrite map_app, concat_empty_app. Qed.

Lemma shown_deltas (texts : list string) :
  shown (flat_map prints_of (map ContentDelta texts)) = String.concat "" texts.
Proof.
  induction texts as [ | t texts IH]; [reflexivity |].
  change (shown ([Print t ""] ++ flat_map prints_of (map ContentDelta texts))
          = String.concat "" ([t] ++ texts)).
  rewrite shown_app, concat_empty_app, IH.
  cbn. now rewrite append_empty_r.
Qed.

(** X11: what the user sees of a run of delta events is the concatenation of
    their texts, so two ways of cutting the same text into deltas show
    the same output, whatever comes before and after. *)
Theorem chunking_does_not_show (py_repr : value -> string)
    (before rest : list StreamEvent) (texts texts' : list string)
    (st : notebook) :
  String.concat "" texts = String.concat "" texts' ->
  let run evs := consume py_repr (EventStream (map wire evs) None) in
  shown (stdout (after (run (before ++ map ContentDelta texts ++ rest)) st)) =
    shown (stdout st) +:+ shown (flat_map prints_of before)
      +:+ String.concat "" texts +:+ shown (flat_map prints_of rest) /\
  shown (stdout (after (run (before ++ map ContentDelta texts ++ rest)) st)) =
  shown (stdout (after (run (before ++ map ContentDelta texts' ++ rest)) st)).
Proof.
  intros Hsame run.
  assert (H : forall ts,
    shown (stdout (after (run (before ++ map ContentDelta ts ++ rest)) st)) =
    shown (stdout st) +:+ shown (flat_map prints_of before)
      +:+ String.concat "" ts +:+ shown (flat_map prints_of rest)).
  { intros ts. unfold run, after. rewrite consume_wire. cbn [snd].
    rewrite stdout_emit, !flat_map_app, !shown_app, shown_deltas.
    reflexivity. }
  split; [apply H |]. now rewrite !H, Hsame.
Qed.

Lemma chunking_does_not_show_witness :
  let run evs := consume repr_unused (EventStream (map wire evs) None) in
  shown (stdout (after (run ([MessageStart "assistant"]
                             ++ map ContentDelta ["Hel"; "lo"]
                             ++ [MessageStop "end_turn"])) asked)) =
  shown (stdout (after (run ([MessageStart "assistant"]
                             ++ map ContentDelta ["H"; "ell"; "o"]
                             ++ [MessageStop "end_turn"])) asked)).
Proof.
  exact (proj2 (chunking_does_not_show repr_unused [MessageStart "assistant"]
                  [MessageStop "end_turn"] ["Hel"; "lo"] ["H"; "ell"; "o"]
                  asked eq_refl)).
Defined.

(** ** More on the request cells *)

(** X12: the streamed answer is only printed: whatever the client returns
    and whatever the stream delivers, the stream cell leaves
    [content_text] as the last blocking request bound it. *)
Theorem stream_cell_keeps_content_text (py_repr : value -> string)
    (client : nat -> request -> result stream_response) (st : notebook) :
  content_text (after (cell_converse_stream py_repr client) st)
    = content_text st.
Proof.
  apply (respects_cell_converse_stream same_content_text);
    unfold same_content_text; try reflexivity; congruence.
Qed.

(** X13: the follow-up request cell by cases: when the client raises, or the
    text cannot be read from its response, the cell ends with that
    exception, prints nothing and leaves [content_text] at its earlier
    value; otherwise it binds the text and then prints the banner. *)
Theorem followup_cell_by_cases (client : nat -> request -> result value)
    (st : notebook) :
  let run := cell_converse_followup client in
  match client (length (api_log st)) (request_of st) with
  | Raise e =>
      outcome run st = Raise e /\
      content_text (after run st) = content_text st /\
      stdout (after run st) = stdout st
  | Ok model_response =>
      match extract_text model_response with
      | Raise e =>
          outcome run st = Raise e /\
          content_text (after run st) = content_text st /\
          stdout (after run st) = stdout st
      | Ok text =>
          outcome run st = Ok model_response /\
          content_text (after run st) = Some text /\
          stdout (after run st) = stdout st ++ [full_response_banner]
      end
  end.
Proof.
  cbv zeta. unfold outcome, after, cell_converse_followup.
  rewrite run_bind.
  destruct (client (length (api_log st)) (request_of st)) as [resp | e] eqn:H.
  - rewrite (converse_once_run _ _ _ H).
    destruct (extract_text resp) as [text | e]; repeat split; reflexivity.
  - unfold converse_once. rewrite run_bind. unfold call_converse. rewrite H.
    repeat split; reflexivity.
Qed.

(** X14: with no append in between, the streamed request repeats the
    blocking one: both calls carry the same model id, system prompt,
    messages and inference parameters, whatever the first call
    returned. *)
Theorem stream_repeats_blocking_request (py_repr : value -> string)
    (client_converse : nat -> request -> result value)
    (client_converse_stream : nat -> request -> result stream_response)
    (st : notebook) :
  api_log (after (cell_converse_stream py_repr client_converse_stream)
             (after (cell_converse client_converse) st)) =
    api_log st ++ [Converse (request_of st); ConverseStream (request_of st)].
Proof.
  rewrite cell_converse_stream_log.
  unfold cell_converse at 2. rewrite converse_once_log.
  unfold request_of at 2. rewrite cell_converse_messages.
  now rewrite <- app_assoc.
Qed.

(** ** More on the builder *)

Lemma getitem_content_dict (turn : value) (c : value) :
  py_getitem turn (KStr "content") = Ok c ->
  exists d, turn = VDict d /\ d !! "content" = Some c.
Proof.
  destruct turn as [ | b | z | f | s | bs | l | d]; try discriminate.
  cbn [py_getitem]. destruct (d !! "content") as [x | ] eqn:Hd; [ | discriminate].
  intros [= ->]. now exists d.
Qed.

Lemma getitem_first_dict (m : value) (d : gmap string value) :
  py_getitem m (KInt 0) = Ok (VDict d) ->
  exists rest, m = VList (VDict d :: rest).
Proof.
  destruct m as [ | b | z | f | s | bs | l | d']; try discriminate.
  - cbn [py_getitem].
    destruct (py_index (list_ascii_of_string s) 0); discriminate.
  - cbn [py_getitem]. destruct (py_index bs 0); discriminate.
  - cbn [py_getitem]. destruct l as [ | x rest].
    + rewrite py_index_nil. discriminate.
    + rewrite py_index_head. intros [= ->]. now exists rest.
Qed.

(** X5: an append either finds the content list of the first message and
    extends it, or raises and changes nothing: IndexError when
    [messages] is empty, KeyError when the first message has no
    "content", AttributeError when its content is a string and so has no
    [append]. *)
Theorem append_fails_cleanly (obj : value) (st : notebook) :
  turn_content (messages st) = None ->
  (exists e, outcome (content_append obj) st = Raise e) /\
  after (content_append obj) st = st /\
  (messages st = VList [] ->
   outcome (content_append obj) st = Raise IndexError) /\
  (forall turn rest, messages st = VList (VDict turn :: rest) ->
     turn !! "content" = None ->
     outcome (content_append obj) st = Raise (KeyError (KStr "content"))) /\
  (forall turn rest s, messages st = VList (VDict turn :: rest) ->
     turn !! "content" = Some (VStr s) ->
     outcome (content_append obj) st = Raise (AttributeError "append")).
Proof.
  intros Hnone. unfold outcome, after, content_append.
  split; [ | split; [ | split; [ | split]]].
  - destruct (py_getitem (messages st) (KInt 0)) as [turn | e] eqn:H0;
      [ | now exists e].
    destruct (py_getitem turn (KStr "content")) as [c | e] eqn:Hc;
      [ | now exists e].
    destruct (getitem_content_dict _ _ Hc) as (d & -> & Hd).
    destruct (getitem_first_dict _ _ H0) as (rest & Hm).
    destruct c; try (now eexists).
    unfold turn_content in Hnone. rewrite Hm, Hd in Hnone. discriminate.
  - destruct (py_getitem (messages st) (KInt 0)) as [turn | e] eqn:H0;
      [ | reflexivity].
    destruct (py_getitem turn (KStr "content")) as [c | e] eqn:Hc;
      [ | reflexivity].
    destruct (getitem_content_dict _ _ Hc) as (d & -> & Hd).
    destruct (getitem_first_dict _ _ H0) as (rest & Hm).
    destruct c; try reflexivity.
    unfold turn_content in Hnone. rewrite Hm, Hd in Hnone. discriminate.
  - intros ->. cbn [py_getitem]. now rewrite py_index_nil.
  - intros turn rest -> Hc. cbn [py_getitem]. rewrite py_index_head.
    cbn [py_getitem]. now rewrite Hc.
  - intros turn rest s -> Hc. cbn [py_getitem]. rewrite py_index_head.
    cbn [py_getitem]. now rewrite Hc.
Qed.

Lemma append_fails_cleanly_witness :
  outcome (cell_query followup_question) (notebook_with (VList []))
    = Raise IndexError /\
  after (cell_query followup_question) (notebook_with (VList []))
    = notebook_with (VList []).
Proof.
  pose proof (append_fails_cleanly (text_block followup_question)
                (notebook_with (VList [])) eq_refl) as (_ & Hsame & Hempty & _).
  split; [exact (Hempty eq_refl) | exact Hsame].
Defined.

(** Values carry no object identity, so this speaks of a [messages] in
    which no list or dict is shared between entries, as the literal of
    the messages cell builds it. *)
Lemma run_ops_messages (ops : list append_op) (st : notebook)
    (turn : gmap string value) (rest c : list value) :
  messages st = VList (VDict turn :: rest) ->
  turn !! "content" = Some (VList c) ->
  messages (after (run_ops ops) st) =
    VList (VDict (<["content" := VList (c ++ map block_of ops)]> turn) :: rest).
Proof.
  revert st turn c. induction ops as [ | op ops IH]; intros st turn c Hm Hc.
  - cbn [map run_ops]. rewrite app_nil_r, insert_id by exact Hc. exact Hm.
  - unfold after. cbn [run_ops]. rewrite run_bind, run_op_append.
    rewrite (content_append_run _ st c)
      by (unfold turn_content; now rewrite Hm, Hc).
    specialize (IH (set_messages (store_content (c ++ [block_of op]) (messages st)) st)
                   (<["content" := VList (c ++ [block_of op])]> turn)
                   (c ++ [block_of op])).
    unfold after in IH. rewrite IH.
    + rewrite insert_insert_eq. cbn [map]. now rewrite <- app_assoc.
    + cbn [set_messages messages]. now rewrite Hm.
    + apply lookup_insert_eq.
Qed.

(** X6: from the turn the messages cell creates, any sequence of appends
    leaves [messages] a list of exactly one message whose role is still
    "user" and whose content is the appended blocks: an append never
    adds a message and never touches the role. *)
Theorem turn_stays_single_user_message (ops : list append_op) (st : notebook) :
  messages (after (run_ops ops) (after cell_messages st)) =
    VList [VDict {[ "role" := VStr "user";
                    "content" := VList (map block_of ops) ]}].
Proof.
  rewrite (run_ops_messages ops (after cell_messages st)
             {[ "role" := VStr "user"; "content" := VList [] ]} [] []
             eq_refl eq_refl).
  vm_compute. reflexivity.
Qed.

(** ** More on the reports *)

Lemma file_name_of_ok (report_url : string) :
  file_name_of report_url = Ok (report_name report_url).
Proof.
  unfold report_name.
  destruct (file_name_of_spec report_url) as (segment & name & -> & _).
  reflexivity.
Qed.

Lemma load_report_ok (requests_get : string -> result http_response)
    (d : string * http_response) (st : notebook) (c : list value) :
  requests_get d.1 = Ok d.2 ->
  raise_for_status d.2 = Ok tt ->
  turn_content (messages st) = Some c ->
  load_report requests_get d.1 st =
    (Ok tt,
     set_messages (store_content (c ++ [report_block d]) (messages st))
                  (write_stdout (report_print d.1) st)).
Proof.
  intros Hget Hstatus Hc.
  apply (load_report_run requests_get d.1 (report_name d.1) d.2 st c);
    [apply file_name_of_ok | assumption ..].
Qed.

Lemma load_report_failed (requests_get : string -> result http_response)
    (report_url : string) (e : exn) (st : notebook) :
  (requests_get report_url = Raise e \/
   exists response, requests_get report_url = Ok response /\
                    raise_for_status response = Raise e) ->
  load_report requests_get report_url st =
    (Raise e, write_stdout (report_print report_url) st).
Proof.
  intros H. unfold load_report.
  rewrite run_bind. unfold lift at 1. rewrite file_name_of_ok.
  rewrite run_bind, run_print, run_bind. unfold lift at 1.
  destruct H as [-> | (response & -> & Hstatus)]; [reflexivity |].
  rewrite run_bind. unfold lift at 1. now rewrite Hstatus.
Qed.

Lemma raise_for_status_error (response : http_response) :
  400 <= status_code response < 600 ->
  raise_for_status response = Raise (HTTPError (status_code response)).
Proof.
  intros [Hlo Hhi]. unfold raise_for_status.
  apply Z.leb_le in Hlo. apply Z.ltb_lt in Hhi. now rewrite Hlo, Hhi.
Qed.

Lemma load_reports_run (requests_get : string -> result http_response)
    (downloads : list (string * http_response)) (urls : list string)
    (st : notebook) (c : list value) :
  Forall (downloaded requests_get) downloads ->
  turn_content (messages st) = Some c ->
  exists st',
    load_reports requests_get (map fst downloads ++ urls) st =
      load_reports requests_get urls st' /\
    turn_content (messages st') = Some (c ++ map report_block downloads) /\
    stdout st' = stdout st ++ map report_print (map fst downloads) /\
    api_log st' = api_log st.
Proof.
  intros Hall. revert st c.
  induction Hall as [ | d downloads [Hget Hstatus] _ IH]; intros st c Hc.
  - exists st. cbn. now rewrite !app_nil_r.
  - cbn [map app load_reports]. 
    destruct (IH (set_messages (store_content (c ++ [report_block d]) (messages st))
                    (write_stdout (report_print d.1) st))
                 (c ++ [report_block d]))
      as (st' & Hrun & Hcontent & Hout & Hlog).
    { cbn [set_messages messages write_stdout].
      now apply turn_content_store with (c := c). }
    exists st'. split; [ | split; [ | split]].
    + rewrite run_bind, (load_report_ok _ d st c Hget Hstatus Hc). exact Hrun.
    + rewrite Hcontent. now rewrite <- app_assoc.
    + rewrite Hout. cbn [set_messages stdout write_stdout].
      now rewrite <- app_assoc.
    + exact Hlog.
Qed.

Lemma report_blocks_hold (downloads : list (string * http_response)) :
  Forall2 (fun d block =>
             exists name, file_name_of d.1 = Ok name /\
                          holds_document block name (content d.2))
          downloads (map report_block downloads).
Proof.
  induction downloads as [ | d downloads IH]; constructor; [ | exact IH].
  exists (report_name d.1).
  exact (conj (file_name_of_ok d.1)
              (document_block_holds (report_name d.1) (content d.2))).
Qed.

(** X1: when every download succeeds the loop appends one document per URL,
    in the order of the URLs; read back from the turn, each has the name
    computed from its URL and the bytes downloaded; the names are
    printed in that order. *)
Theorem reports_appended_in_order
    (requests_get : string -> result http_response)
    (downloads : list (string * http_response))
    (st : notebook) (c : list value) :
  Forall (downloaded requests_get) downloads ->
  turn_content (messages st) = Some c ->
  let run := load_reports requests_get (map fst downloads) in
  outcome run st = Ok tt /\
  (exists blocks,
     turn_content (messages (after run st)) = Some (c ++ blocks) /\
     Forall2 (fun d block =>
                exists name, file_name_of d.1 = Ok name /\
                             holds_document block name (content d.2))
             downloads blocks) /\
  turn_content (messages (after run st)) = Some (c ++ map report_block downloads) /\
  stdout (after run st) = stdout st ++ map report_print (map fst downloads).
Proof.
  intros Hall Hc run.
  destruct (load_reports_run requests_get downloads [] st c Hall Hc)
    as (st' & Hrun & Hcontent & Hout & _).
  unfold run, outcome, after. rewrite app_nil_r in Hrun. rewrite Hrun.
  cbn [load_reports]. rewrite run_ret_tt. cbn [fst snd].
  split; [reflexivity |].
  split; [ | split; assumption].
  exists (map report_block downloads).
  split; [exact Hcontent | apply report_blocks_hold].
Qed.

(** X2: a download that fails, by an exception of [requests.get] or by a
    status from 400 to 599, ends the loop with that exception: its name
    was already printed, the documents of the earlier URLs stay
    appended, nothing is appended for it, and the later URLs are not
    reached. *)
Theorem failed_download_stops_loop
    (requests_get : string -> result http_response)
    (downloads : list (string * http_response)) (failed : string)
    (later : list string) (e : exn) (st : notebook) (c : list value) :
  Forall (downloaded requests_get) downloads ->
  turn_content (messages st) = Some c ->
  (requests_get failed = Raise e \/
   exists response, requests_get failed = Ok response /\
                    400 <= status_code response < 600 /\
                    e = HTTPError (status_code response)) ->
  let run := load_reports requests_get (map fst downloads ++ failed :: later) in
  outcome run st = Raise e /\
  turn_content (messages (after run st)) = Some (c ++ map report_block downloads) /\
  stdout (after run st) =
    stdout st ++ map report_print (map fst downloads) ++ [report_print failed].
Proof.
  intros Hall Hc Hfail run.
  destruct (load_reports_run requests_get downloads (failed :: later) st c Hall Hc)
    as (st' & Hrun & Hcontent & Hout & _).
  unfold run, outcome, after. rewrite Hrun. cbn [load_reports].
  rewrite run_bind, (load_report_failed requests_get failed e).
  - cbn [fst snd write_stdout messages stdout].
    rewrite Hcontent, Hout, <- app_assoc. repeat split; reflexivity.
  - destruct Hfail as [H | (response & Hget & Hstatus & ->)]; [now left |].
    right. exists response. split; [exact Hget |].
    now apply raise_for_status_error.
Qed.

Lemma reports_appended_in_order_witness :
  let downloads := [(first_report, pdf_response); (second_report, pdf_response)] in
  let run := load_reports (fun _ => Ok pdf_response) (map fst downloads) in
  Forall (downloaded (fun _ => Ok pdf_response)) downloads /\
  outcome run asked = Ok tt /\
  exists blocks,
    turn_content (messages (after run asked)) =
      Some ([text_block "Analyze the reports."] ++ blocks) /\
    Forall2 (fun d block =>
               exists name, file_name_of d.1 = Ok name /\
                            holds_document block name (content d.2))
            downloads blocks.
Proof.
  cbv zeta.
  assert (H : Forall (downloaded (fun _ => Ok pdf_response))
                [(first_report, pdf_response); (second_report, pdf_response)]).
  { repeat constructor. }
  split; [exact H |].
  pose proof (reports_appended_in_order (fun _ => Ok pdf_response)
                [(first_report, pdf_response); (second_report, pdf_response)]
                asked [text_block "Analyze the reports."] H eq_refl)
    as (Hok & Hblocks & _).
  split; [exact Hok | exact Hblocks].
Defined.

Lemma failed_download_stops_loop_witness :
  let run := load_reports first_report_only
               (map fst [(first_report, pdf_response)] ++ second_report :: []) in
  outcome run asked = Raise (HTTPError 404) /\
  turn_content (messages (after run asked)) =
    Some ([text_block "Analyze the reports."]
          ++ map report_block [(first_report, pdf_response)]).
Proof.
  cbv zeta.
  assert (H : Forall (downloaded first_report_only) [(first_report, pdf_response)]).
  { repeat constructor. }
  pose proof (failed_download_stops_loop first_report_only
                [(first_report, pdf_response)] second_report []
                (HTTPError 404) asked [text_block "Analyze the reports."]
                H eq_refl) as Hthm.
  destruct Hthm as (Hraise & Hcontent & _).
  - right. exists not_found_response.
    split; [reflexivity | split; [cbn; lia | reflexivity]].
  - split; [exact Hraise | exact Hcontent].
Defined.

(** ** More on the name of a report *)

Lemma occurs_cons (sep c : ascii) (s : string) :
  ~ occurs sep (String c s) -> c <> sep /\ ~ occurs sep s.
Proof.
  unfold occurs. cbn [list_ascii_of_string]. intros H. split.
  - intros ->. apply H. now left.
  - intros Hin. apply H. now right.
Qed.

Lemma occurs_append (sep c : ascii) (s s' : string) :
  ~ occurs sep s -> c <> sep -> ~ occurs sep s' ->
  ~ occurs sep (s +:+ String c s').
Proof.
  induction s as [ | x s IH]; intros Hs Hc Hs'.
  - intros [H | H]; [congruence | exact (Hs' H)].
  - destruct (occurs_cons _ _ _ Hs) as [Hx Hs0].
    intros [H | H]; [congruence |]. exact (IH Hs0 Hc Hs' H).
Qed.

Lemma str_split_no_sep (sep : ascii) (s : string) :
  ~ occurs sep s -> str_split sep s = [s].
Proof.
  induction s as [ | c s IH]; intros H; [reflexivity |].
  destruct (occurs_cons _ _ _ H) as [Hc Hs].
  cbn [str_split]. destruct (Ascii.eqb_spec c sep) as [-> | _]; [congruence |].
  now rewrite (IH Hs).
Qed.

Lemma str_split_sep_app (sep : ascii) (s s' : string) :
  str_split sep (s +:+ String sep s') = str_split sep s ++ str_split sep s'.
Proof.
  induction s as [ | c s IH].
  - change ("" +:+ String sep s') with (String sep s').
    cbn [str_split app]. now rewrite Ascii.eqb_refl.
  - change (String c s +:+ String sep s') with (String c (s +:+ String sep s')).
    cbn [str_split]. rewrite IH.
    pose proof (str_split_nonempty sep s) as Hnil.
    destruct (Ascii.eqb c sep); [reflexivity |].
    destruct (str_split sep s) as [ | seg segs]; [congruence | reflexivity].
Qed.

Lemma file_name_of_segment (path segment : string) :
  ~ occurs "/" segment ->
  file_name_of (path +:+ String "/" segment) =
    py_index (str_split "." segment) 0.
Proof.
  intros H. unfold file_name_of.
  rewrite str_split_sep_app, (str_split_no_sep "/" segment H).
  now rewrite py_index_last, last_snoc.
Qed.

(** X4: the name depends on the last segment only and drops everything from
    its first ".": whatever the path before the last "/" and the
    extension, a file "name.ext" is named "name", and a last segment
    without "." is the name as it is, the empty name for a URL that ends
    in "/". *)
Theorem file_name_from_last_segment (path name ext : string) :
  ~ occurs "/" name -> ~ occurs "." name -> ~ occurs "/" ext ->
  file_name_of (path +:+ String "/" (name +:+ String "." ext)) = Ok name /\
  file_name_of (path +:+ String "/" name) = Ok name.
Proof.
  intros Hslash Hdot Hext. split.
  - rewrite file_name_of_segment
      by (apply occurs_append; [assumption | discriminate | assumption]).
    rewrite str_split_sep_app, (str_split_no_sep "." name Hdot).
    cbn [app]. apply py_index_head.
  - rewrite (file_name_of_segment path name Hslash).
    rewrite (str_split_no_sep "." name Hdot). apply py_index_head.
Qed.

Lemma file_name_from_last_segment_witness :
  file_name_of ("https://example.com/a.b/c" +:+ String "/"
                  ("Amazon-2024-Annual-Report" +:+ String "." "v2.pdf"))
    = Ok "Amazon-2024-Annual-Report".
Proof.
  apply (file_name_from_last_segment "https://example.com/a.b/c"
           "Amazon-2024-Annual-Report" "v2.pdf");
    unfold occurs; cbn; intuition discriminate.
Defined.

(** ** The cells in order *)

Lemma cell_query_run (text : string) (st : notebook) (c : list value) :
  turn_content (messages st) = Some c ->
  turn_content (messages (after (cell_query text) st))
    = Some (c ++ [text_block text]) /\
  api_log (after (cell_query text) st) = api_log st.
Proof.
  intros Hc. unfold after, cell_query.
  rewrite (content_append_run _ st c Hc). cbn [snd set_messages messages api_log].
  split; [now apply turn_content_store with (c := c) | reflexivity].
Qed.

Lemma run_seq_ok {A B : Type} (m : nb A) (k : nb B) (st st' : notebook) (a : A) :
  m st = (Ok a, st') -> (m ;; k) st = k st'.
Proof. intros H. now rewrite run_bind, H. Qed.

Lemma run_seq_raise {A B : Type} (m : nb A) (k : nb B) (st st' : notebook)
    (e : exn) :
  m st = (Raise e, st') -> (m ;; k) st = (Raise e, st').
Proof. intros H. now rewrite run_bind, H. Qed.

Lemma request_of_messages (st st' : notebook) :
  messages st' = messages st -> request_of st' = request_of st.
Proof. intros H. unfold request_of. now rewrite H. Qed.

Lemma cell_markdown_after (display_markdown : value -> result value)
    (st : notebook) :
  after (cell_markdown display_markdown) st = st.
Proof. unfold after, cell_markdown. now destruct (content_text st). Qed.

(** X15: run top to bottom with both downloads succeeding, the notebook
    calls the client one to three times: first a blocking call whose
    turn is the instructions followed by the two reports; when the
    client raises there the run ends with that exception and this one
    call; a second call streams the same request, and a third, blocking
    one carries these three blocks followed by the follow-up question.
    A run that finishes has made all three calls. *)
Theorem notebook_requests (py_repr : value -> string)
    (requests_get : string -> result http_response)
    (client_converse : nat -> request -> result value)
    (client_converse_stream : nat -> request -> result stream_response)
    (display_markdown : value -> result value)
    (instructions : string) (downloads : list (string * http_response))
    (st : notebook) :
  map fst downloads = reports ->
  Forall (downloaded requests_get) downloads ->
  let run := notebook_run py_repr requests_get client_converse
               client_converse_stream display_markdown instructions in
  let first := text_block instructions :: map report_block downloads in
  exists r r',
    turn_content (req_messages r) = Some first /\
    turn_content (req_messages r') = Some (first ++ [text_block followup_question]) /\
    (exists k, (1 <= k <= 3)%nat /\
       api_log (after run st) =
         api_log st ++ take k [Converse r; ConverseStream r; Converse r']) /\
    (forall e, client_converse (length (api_log st)) r = Raise e ->
       outcome run st = Raise e /\
       api_log (after run st) = api_log st ++ [Converse r]) /\
    (forall shown_last, outcome run st = Ok shown_last ->
       api_log (after run st) =
         api_log st ++ [Converse r; ConverseStream r; Converse r']).
Proof.
  intros Hurls Hall run first.
  set (st1 := set_messages fresh_messages st).
  assert (H1 : cell_messages st = (Ok tt, st1)) by reflexivity.
  pose proof (content_append_run (text_block instructions) st1 [] eq_refl) as H2.
  set (st2 := set_messages _ st1) in H2.
  assert (Hc2 : turn_content (messages st2) = Some [text_block instructions])
    by reflexivity.
  destruct (load_reports_run requests_get downloads [] st2 _ Hall Hc2)
    as (st3 & Hrun & Hc3 & _ & Hlog3).
  assert (H3 : cell_reports requests_get st2 = (Ok tt, st3)).
  { unfold cell_reports. rewrite <- Hurls.
    rewrite app_nil_r in Hrun. now rewrite Hrun. }
  cbn [app] in Hc3. fold first in Hc3.
  assert (Hlog : api_log st3 = api_log st) by (rewrite Hlog3; reflexivity).
  assert (Hstart : run st = (converse_once client_converse ;;
             cell_markdown display_markdown ;;
             cell_converse_stream py_repr client_converse_stream ;;
             cell_query followup_question ;;
             cell_converse_followup client_converse ;;
             cell_markdown display_markdown) st3).
  { unfold run, notebook_run.
    rewrite (run_seq_ok _ _ _ _ _ H1).
    unfold cell_query at 1. rewrite (run_seq_ok _ _ _ _ _ H2).
    now rewrite (run_seq_ok _ _ _ _ _ H3). }
  set (r := request_of st3).
  set (m6 := store_content (first ++ [text_block followup_question]) (messages st3)).
  assert (Hm6 : turn_content m6 = Some (first ++ [text_block followup_question]))
    by (now apply turn_content_store with (c := first)).
  exists r, (Request model_id system_prompt m6 inf_params).
  split; [exact Hc3 |]. split; [exact Hm6 |].
  assert (Hfirst : forall e,
            client_converse (length (api_log st)) r = Raise e ->
            fst (converse_once client_converse st3) = Raise e).
  { intros e He. rewrite <- Hlog in He.
    exact (proj1 (client_error_surfaces client_converse st3 e He)). }
  pose proof (converse_once_log client_converse st3) as Hlog4.
  pose proof (cell_converse_messages client_converse st3) as Hm4.
  unfold after in Hlog4, Hm4. unfold cell_converse in Hm4.
  fold r in Hlog4. rewrite Hlog in Hlog4.
  unfold outcome, after. rewrite Hstart.
  destruct (converse_once client_converse st3) as [[resp | e4] st4] eqn:E4;
    cbn [fst snd] in Hlog4, Hm4, Hfirst.
  2:{ rewrite !(run_seq_raise _ _ _ _ _ E4). cbn [fst snd].
      split; [exists 1%nat; split; [lia | exact Hlog4] |].
      split; [ | discriminate].
      intros e He. specialize (Hfirst e He). now injection Hfirst as <-. }
  rewrite !(run_seq_ok _ _ _ _ _ E4).
  assert (Hnot : forall e (P : Prop),
            client_converse (length (api_log st)) r = Raise e -> P).
  { intros e P He. specialize (Hfirst e He). discriminate Hfirst. }
  pose proof (cell_markdown_after display_markdown st4) as Hshow.
  unfold after in Hshow.
  destruct (cell_markdown display_markdown st4) as [[shown4 | e] st4'] eqn:EM;
    cbn [snd] in Hshow; subst st4'.
  2:{ rewrite !(run_seq_raise _ _ _ _ _ EM). cbn [fst snd].
      split; [exists 1%nat; split; [lia | exact Hlog4] |].
      split; [intros e' He; now apply (Hnot e') | discriminate]. }
  rewrite !(run_seq_ok _ _ _ _ _ EM).
  pose proof (cell_converse_stream_log py_repr client_converse_stream st4) as Hlog5.
  pose proof (cell_converse_stream_messages py_repr client_converse_stream st4)
    as Hm5.
  unfold after in Hlog5, Hm5.
  rewrite (request_of_messages st3 st4 Hm4) in Hlog5. fold r in Hlog5.
  rewrite Hlog4, <- app_assoc in Hlog5. cbn [app] in Hlog5.
  destruct (cell_converse_stream py_repr client_converse_stream st4)
    as [[[] | e5] st5] eqn:E5; cbn [snd] in Hlog5, Hm5.
  2:{ rewrite !(run_seq_raise _ _ _ _ _ E5). cbn [fst snd].
      split; [exists 2%nat; split; [lia | exact Hlog5] |].
      split; [intros e' He; now apply (Hnot e') | discriminate]. }
  rewrite !(run_seq_ok _ _ _ _ _ E5).
  assert (Hc5 : turn_content (messages st5) = Some first)
    by (now rewrite Hm5, Hm4).
  pose proof (content_append_run (text_block followup_question) st5 first Hc5)
    as H6.
  rewrite Hm5, Hm4 in H6. fold m6 in H6.
  unfold cell_query. rewrite !(run_seq_ok _ _ _ _ _ H6).
  pose proof (cell_converse_followup_log client_converse (set_messages m6 st5))
    as Hlog7.
  unfold after in Hlog7.
  change (request_of (set_messages m6 st5))
    with (Request model_id system_prompt m6 inf_params) in Hlog7.
  change (api_log (set_messages m6 st5)) with (api_log st5) in Hlog7.
  rewrite Hlog5, <- app_assoc in Hlog7. cbn [app] in Hlog7.
  destruct (cell_converse_followup client_converse (set_messages m6 st5))
    as [[resp7 | e7] st7] eqn:E7; cbn [snd] in Hlog7.
  2:{ rewrite !(run_seq_raise _ _ _ _ _ E7). cbn [fst snd].
      split; [exists 3%nat; split; [lia | exact Hlog7] |].
      split; [intros e' He; now apply (Hnot e') | discriminate]. }
  rewrite !(run_seq_ok _ _ _ _ _ E7).
  pose proof (cell_markdown_after display_markdown st7) as Hshow7.
  unfold after in Hshow7. rewrite Hshow7.
  split; [exists 3%nat; split; [lia | exact Hlog7] |].
  split; [intros e' He; now apply (Hnot e') | intros _ _; exact Hlog7].
Qed.

Lemma notebook_requests_witness :
  let downloads := [(first_report, pdf_response); (second_report, pdf_response)] in
  let run := notebook_run repr_unused (fun _ => Ok pdf_response)
               (fun _ _ => Ok hello_response) (fun _ _ => Ok hello_stream)
               (fun text => Ok text) "Analyze the reports." in
  exists r r',
    turn_content (req_messages r) =
      Some (text_block "Analyze the reports." :: map report_block downloads) /\
    forall shown_last, outcome run (notebook_with VNone) = Ok shown_last ->
      api_log (after run (notebook_with VNone)) =
        api_log (notebook_with VNone)
          ++ [Converse r; ConverseStream r; Converse r'].
Proof.
  cbv zeta.
  assert (H : Forall (downloaded (fun _ => Ok pdf_response))
                [(first_report, pdf_response); (second_report, pdf_response)]).
  { repeat constructor. }
  destruct (notebook_requests repr_unused (fun _ => Ok pdf_response)
              (fun _ _ => Ok hello_response) (fun _ _ => Ok hello_stream)
              (fun text => Ok text) "Analyze the reports."
              [(first_report, pdf_response); (second_report, pdf_response)]
              (notebook_with VNone) eq_refl H)
    as (r & r' & Hr & _ & _ & _ & Hdone).
  exists r, r'. exact (conj Hr Hdone).
Defined.

(** X3: running the download loop again appends the same documents again,
    after the first ones: nothing is replaced or skipped because a
    document of that name is already in the turn. *)
Theorem rerun_appends_again
    (requests_get : string -> result http_response)
    (downloads : list (string * http_response))
    (st : notebook) (c : list value) :
  Forall (downloaded requests_get) downloads ->
  turn_content (messages st) = Some c ->
  let run := load_reports requests_get (map fst downloads) in
  outcome run (after run st) = Ok tt /\
  turn_content (messages (after run (after run st))) =
    Some (c ++ map report_block downloads ++ map report_block downloads).
Proof.
  intros Hall Hc run.
  destruct (load_reports_run requests_get downloads [] st c Hall Hc)
    as (st1 & Hrun1 & Hc1 & _).
  destruct (load_reports_run requests_get downloads [] st1 _ Hall Hc1)
    as (st2 & Hrun2 & Hc2 & _).
  rewrite app_nil_r in Hrun1, Hrun2.
  unfold run, outcome, after. rewrite Hrun1. cbn [load_reports].
  rewrite run_ret_tt. cbn [snd]. rewrite Hrun2. cbn [load_reports].
  rewrite run_ret_tt. cbn [fst snd]. rewrite Hc2, <- app_assoc.
  split; reflexivity.
Qed.

Lemma rerun_appends_again_witness :
  let downloads := [(first_report, pdf_response)] in
  let run := load_reports (fun _ => Ok pdf_response) (map fst downloads) in
  turn_content (messages (after run (after run asked))) =
    Some ([text_block "Analyze the reports."]
          ++ map report_block downloads ++ map report_block downloads).
Proof.
  cbv zeta.
  assert (H : Forall (downloaded (fun _ => Ok pdf_response))
                [(first_report, pdf_response)]).
  { repeat constructor. }
  exact (proj2 (rerun_appends_again (fun _ => Ok pdf_response)
                  [(first_report, pdf_response)] asked
                  [text_block "Analyze the reports."] H eq_refl)).
Defined.
